(** * Task API: a shallow embedding of [main.py] and [logger.py]

    The service is a FastAPI application with three routes (health, create
    task, list tasks), one HTTP middleware and a start-up hook that creates
    the [tasks] table.  The handlers are translated into a small
    state-and-exception monad over a [World] made of the relational store
    and a chronological trace of the effects performed (log calls and
    database calls).  What the outside decides (random bits of the request
    id, whether the store can be reached, clock readings) is an explicit
    [Env] argument.  A text is a [string] holding its UTF-8 encoding. *)

From Stdlib Require Import ZArith NArith QArith Ascii String List Lia.
From stdpp Require Import base option list strings pretty gmap sorting.

#[local] Set Warnings "-register-all".
Local Open Scope Z_scope.
Local Open Scope string_scope.
Local Open Scope list_scope.

(** ** Decoded JSON *)

Module Json.

(** A Python [float] as [json.loads] yields it: a finite number, or one of
    the values the decoder accepts beyond the JSON grammar ([NaN],
    [Infinity], [-Infinity]); a literal out of range such as [1e400] is
    read as an infinity too. *)
Inductive pyfloat : Type :=
| Finite (q : Q)
| NaN
| Infinity (negative : bool).

(** What [json.loads] yields for a request body.  A [str] is given by its
    UTF-8 encoding; [JSurrogate] is a [str] that has none, because it holds
    a lone surrogate (the decoder accepts the escape [\ud800] on its
    own). *)
Inductive json : Type :=
| JNull
| JBool (b : bool)
| JNumber (z : Z)
| JFloat (x : pyfloat)
| JString (s : string)
| JSurrogate
| JArray (l : list json)
| JObject (members : list (string * json)).

(** The members of an object that make it into the [dict]: of the members
    that share a name the last one counts. *)
Fixpoint effective {A} (members : list (string * A)) : list (string * A) :=
  match members with
  | [] => []
  | (k, v) :: rest =>
      if existsb (fun kv => String.eqb (fst kv) k) rest
      then effective rest
      else (k, v) :: effective rest
  end.

(** The value as Python holds it, every object in it a [dict]. *)
Fixpoint loaded (j : json) : json :=
  match j with
  | JArray l => JArray (map loaded l)
  | JObject members =>
      JObject (effective (map (fun kv => let '(k, v) := kv in (k, loaded v))
                            members))
  | _ => j
  end.

(** [json.dumps(..., allow_nan=False)] raises [ValueError] on a value that
    holds a float which is not finite. *)
Fixpoint out_of_range (j : json) : bool :=
  match j with
  | JFloat (Finite _) => false
  | JFloat _ => true
  | JArray l => existsb out_of_range l
  | JObject members =>
      existsb (fun kv => let '(_, v) := kv in out_of_range v) members
  | _ => false
  end.

(** [s.encode("utf-8")] raises [UnicodeEncodeError] on a text that holds a
    lone surrogate. *)
Fixpoint lone_surrogate (j : json) : bool :=
  match j with
  | JSurrogate => true
  | JArray l => existsb lone_surrogate l
  | JObject members =>
      existsb (fun kv => let '(_, v) := kv in lone_surrogate v) members
  | _ => false
  end.

End Json.
Export Json.

(** ** Python values *)

Module Py.

(** The values that travel through [extra=...] dictionaries and log
    records, tagged with their Python type.  [VObject] stands for an
    instance of any other class, named by its class. *)
Inductive value : Type :=
| VNone
| VBool (b : bool)
| VInt (z : Z)
| VFloat (q : Q)
| VStr (s : string)
| VList (l : list value)
| VDict (d : list (string * value))
| VTuple (l : list value)
| VObject (cls : string).

(** A dict literal, in insertion order. *)
Definition kwargs : Type := list (string * value).

(** [d.get(key)] on an insertion-ordered dict with unique keys. *)
Fixpoint get (key : string) (d : kwargs) : option value :=
  match d with
  | [] => None
  | (k, v) :: d' => if String.eqb k key then Some v else get key d'
  end.

(** Python truthiness of an optional string: [None] and the empty string
    are falsy. *)
Definition truthy (o : option string) : bool :=
  match o with
  | Some (String _ _) => true
  | _ => false
  end.

(** Exceptions, all of them subclasses of [Exception].  A
    [RequestValidationError] carries, next to the place of the errors, the
    rejected input that each error echoes. *)
Inductive exn : Type :=
| PostgresError (msg : string)
| KeyError (key : string)
| ValidationError (msg : string)
| ValueError (msg : string)
| UnicodeEncodeError (msg : string)
| RequestValidationError (loc : string) (inputs : list json)
| HTTPException (status_code : Z) (detail : string).

(** [str(e)].  The text of a [KeyError] is the [repr] of its key (written
    here for a key that holds no quote and needs no escape), that of an
    [HTTPException] its status code and detail. *)
Definition str (e : exn) : string :=
  match e with
  | PostgresError msg => msg
  | KeyError key => "'" +:+ key +:+ "'"
  | ValidationError msg => msg
  | ValueError msg => msg
  | UnicodeEncodeError msg => msg
  | RequestValidationError loc _ => loc
  | HTTPException status_code detail =>
      pretty status_code +:+ ": " +:+ detail
  end.

Inductive result (A : Type) : Type :=
| Return (a : A)
| Raise (e : exn).
Arguments Return {A} a.
Arguments Raise {A} e.

End Py.
Export Py.

(** ** The relational store *)

Module Postgres.

(** A row of
    [tasks(id SERIAL PRIMARY KEY, title VARCHAR(255) NOT NULL,
           description TEXT, status VARCHAR(50) DEFAULT 'pending',
           user_id VARCHAR(255) NOT NULL,
           created_at TIMESTAMP DEFAULT CURRENT_TIMESTAMP)].
    Nullable columns are options. *)
Record Row : Type := {
  r_id : Z;
  r_title : string;
  r_description : option string;
  r_status : option string;
  r_user_id : string;
  r_created_at : Z
}.

(** The database: the [tasks] relation ([None] until the schema has been
    created) and the sequence behind the [SERIAL] column. *)
Record Store : Type := {
  tasks : option (list Row);
  tasks_id_seq : Z
}.

Inductive sqlval : Type :=
| SqlNull
| SqlInt (z : Z)
| SqlText (s : string)
| SqlTimestamp (t : Z).

(** What [fetchrow]/[fetch] hand back: an [asyncpg.Record], a mapping from
    the selected column names to values. *)
Definition PgRecord : Type := list (string * sqlval).

Fixpoint column (name : string) (r : PgRecord) : option sqlval :=
  match r with
  | [] => None
  | (k, v) :: r' => if String.eqb k name then Some v else column name r'
  end.

Definition nullable (o : option string) : sqlval :=
  match o with
  | Some s => SqlText s
  | None => SqlNull
  end.

Definition all_spaces (s : string) : bool :=
  forallb (Ascii.eqb " "%char) (list_ascii_of_string s).

(** A [string] holds a text in its UTF-8 encoding, one [ascii] per byte.
    A character starts at every byte that is not a continuation byte (a
    byte of the form [10xxxxxx]). *)
Definition continuation (c : ascii) : bool :=
  let n := nat_of_ascii c in ((128 <=? n) && (n <? 192))%nat.

(** [char_length(s)]: the number of characters of the text. *)
Fixpoint char_length (s : string) : nat :=
  match s with
  | EmptyString => 0%nat
  | String c s' =>
      if continuation c then char_length s' else S (char_length s')
  end.

(** The first [n] characters of a text, and what follows them. *)
Fixpoint clip (n : nat) (s : string) : string :=
  match s with
  | EmptyString => EmptyString
  | String c s' =>
      if continuation c then String c (clip n s')
      else match n with
           | O => EmptyString
           | S n' => String c (clip n' s')
           end
  end.

Fixpoint excess (n : nat) (s : string) : string :=
  match s with
  | EmptyString => EmptyString
  | String c s' =>
      if continuation c then excess n s'
      else match n with
           | O => s
           | S n' => excess n' s'
           end
  end.

(** Assignment of a text to a [VARCHAR(n)] column.  A value of at most [n]
    characters is stored as it is.  A longer one is an error, unless the
    excess characters are all spaces, in which case it is truncated to
    [n] characters (the rule of the SQL standard that PostgreSQL follows
    for values stored into [character varying(n)] columns). *)
Definition varchar (n : nat) (s : string) : option string :=
  if (char_length s <=? n)%nat then Some s
  else if all_spaces (excess n s)
       then Some (clip n s)
       else None.

(** The text holds the character U+0000, which no text value of the store
    can hold. *)
Definition has_nul (s : string) : bool :=
  existsb (Ascii.eqb zero) (list_ascii_of_string s).

(** [CREATE TABLE IF NOT EXISTS tasks (...); CREATE INDEX IF NOT EXISTS
    ...] (four indexes, which hold no data of their own). *)
Definition create_schema (st : Store) : Store :=
  match tasks st with
  | Some _ => st
  | None => {| tasks := Some []; tasks_id_seq := tasks_id_seq st |}
  end.

(** [RETURNING id, title, description, status, user_id] and
    [SELECT id, title, description, status, user_id]. *)
Definition selected_columns (r : Row) : PgRecord :=
  [ ("id", SqlInt (r_id r));
    ("title", SqlText (r_title r));
    ("description", nullable (r_description r));
    ("status", nullable (r_status r));
    ("user_id", SqlText (r_user_id r)) ].

(** A name between double quotes, as the store writes it in its
    messages. *)
Definition quoted (s : string) : string :=
  String (ascii_of_nat 34) s +:+ String (ascii_of_nat 34) EmptyString.

Definition undefined_table : exn :=
  PostgresError ("relation " +:+ quoted "tasks" +:+ " does not exist").
Definition string_data_right_truncation : exn :=
  PostgresError "value too long for type character varying(255)".

Definition character_not_in_repertoire : exn :=
  PostgresError
    ("invalid byte sequence for encoding " +:+ quoted "UTF8" +:+ ": 0x00").
Definition sequence_exhausted : exn :=
  PostgresError
    ("nextval: reached maximum value of sequence " +:+ quoted "tasks_id_seq"
     +:+ " (2147483647)").
Definition unique_violation : exn :=
  PostgresError
    ("duplicate key value violates unique constraint " +:+ quoted "tasks_pkey").

(** The largest value of the sequence behind a [SERIAL] column, which is
    an [integer] (four bytes). *)
Definition int4_max : Z := 2147483647.

(** [INSERT INTO tasks (title, description, user_id) VALUES ($1, $2, $3)]:
    the row that is stored, with the next sequence value as [id], the
    column default as [status] and the store's clock as [created_at]. *)
Definition new_row (now : Z) (st : Store)
    (title : string) (description : option string) (user_id : string)
  : option Row :=
  match varchar 255 title, varchar 255 user_id with
  | Some t, Some u =>
      Some {| r_id := tasks_id_seq st;
              r_title := t;
              r_description := description;
              r_status := Some "pending";
              r_user_id := u;
              r_created_at := now |}
  | _, _ => None
  end.

(** The whole insert statement of [create_task] on a store: the record
    returned and the store afterwards, or the error raised.  The statement
    is refused when the table is missing, when one of the three texts
    holds U+0000, when title or user_id does not go into its column, when
    the sequence has no value left, and when the primary key already holds
    the value the sequence gives. *)
Definition insert_returning (now : Z) (st : Store)
    (title : string) (description : option string) (user_id : string)
  : exn + (PgRecord * Store) :=
  match tasks st with
  | None => inl undefined_table
  | Some rows =>
      if has_nul title || from_option has_nul false description
         || has_nul user_id
      then inl character_not_in_repertoire
      else
        match new_row now st title description user_id with
        | None => inl string_data_right_truncation
        | Some row =>
            if (int4_max <? r_id row)%Z then inl sequence_exhausted
            else if bool_decide (r_id row ∈ map r_id rows)
            then inl unique_violation
            else
              inr (selected_columns row,
                   {| tasks := Some (rows ++ [row]);
                      tasks_id_seq := tasks_id_seq st + 1 |})
        end
  end.

(** [ORDER BY id DESC]. *)
Definition id_desc (a b : Row) : Prop := r_id b <= r_id a.

Global Instance id_desc_dec (a b : Row) : Decision (id_desc a b) :=
  decide (r_id b <= r_id a).

(** [SELECT id, title, description, status, user_id FROM tasks
     WHERE user_id = $1 ORDER BY id DESC]. *)
Definition matching (user_id : string) (rows : list Row) : list Row :=
  filter (fun r => r_user_id r = user_id) rows.

Definition select_by_user (st : Store) (user_id : string)
  : exn + list PgRecord :=
  match tasks st with
  | None => inl undefined_table
  | Some rows =>
      if has_nul user_id then inl character_not_in_repertoire
      else
        inr (map selected_columns
               (merge_sort id_desc (matching user_id rows)))
  end.

End Postgres.
Export Postgres.

(** ** The world a handler runs in *)

Module Runtime.

Inductive level : Type := INFO | ERROR.

(** What a log call goes through: the module-level [logger] of [main.py]
    or a [LoggerAdapter(logger, extra_context)] carrying its context. *)
Inductive Logger : Type :=
| ModuleLogger
| LoggerAdapter (extra_context : kwargs).

(** The effects of the service, in the order they happen.  [Connected]
    records a connection that was established, [Closed] a call of
    [conn.close()]; the three statement events record that the statement
    was sent, whatever its outcome. *)
Inductive event : Type :=
| Logged (lvl : level) (via : Logger) (msg : string) (extra : kwargs)
         (exc_info : bool)
| Connected
| Execute
| Fetchrow
| Fetch
| Closed.

Record World : Type := {
  store : Store;
  trace : list event
}.

(** What the outside decides for one run of a handler or of the start-up
    hook. *)
Record Env : Type := {
  (** the 16 bytes that [uuid.uuid4()] draws, as a number *)
  urandom : N;
  (** [asyncpg.connect] raises an error with this text *)
  connect_error : option string;
  (** the statement raises an error with this text for a reason that lies
      outside the table's data (connection lost, store shut down, ...),
      before the store has changed anything *)
  statement_error : option string;
  (** [CURRENT_TIMESTAMP] of the store *)
  current_timestamp : Z;
  (** the two readings of [time.time()] in the middleware *)
  time_start : Q;
  time_end : Q;
  (** [DB_NAME] and [DB_HOST], read from the process environment *)
  DB_NAME : string;
  DB_HOST : string
}.

Definition M (A : Type) : Type := World -> result A * World.

Definition ret {A} (a : A) : M A := fun w => (Return a, w).

Definition raise {A} (e : exn) : M A := fun w => (Raise e, w).

Definition bind {A B} (m : M A) (k : A -> M B) : M B :=
  fun w =>
    match m w with
    | (Return a, w') => k a w'
    | (Raise e, w') => (Raise e, w')
    end.

(** [try: body  except Exception as e: handler(e)]. *)
Definition try_except {A} (body : M A) (handler : exn -> M A) : M A :=
  fun w =>
    match body w with
    | (Return a, w') => (Return a, w')
    | (Raise e, w') => handler e w'
    end.

Definition of_result {A} (r : result A) : M A := fun w => (r, w).

Definition emit (ev : event) : M unit :=
  fun w => (Return tt, {| store := store w; trace := trace w ++ [ev] |}).

Definition log (lvl : level) (via : Logger) (msg : string) (extra : kwargs)
    (exc_info : bool) : M unit :=
  emit (Logged lvl via msg extra exc_info).

End Runtime.
Export Runtime.

Notation "'let*' x ':=' m 'in' k" := (bind m (fun x => k))
  (at level 10, x name, m at level 100, k at level 200).

(** ** asyncpg *)

Module asyncpg.

(** How each statement of the service ends on a given store, before any
    effect is recorded. *)
Definition execute_outcome (env : Env) (st : Store) : exn + Store :=
  match statement_error env with
  | Some msg => inl (PostgresError msg)
  | None => inr (create_schema st)
  end.

Definition fetchrow_outcome (env : Env) (st : Store)
    (title : string) (description : option string) (user_id : string)
  : exn + (PgRecord * Store) :=
  match statement_error env with
  | Some msg => inl (PostgresError msg)
  | None => insert_returning (current_timestamp env) st
              title description user_id
  end.

Definition fetch_outcome (env : Env) (st : Store) (user_id : string)
  : exn + list PgRecord :=
  match statement_error env with
  | Some msg => inl (PostgresError msg)
  | None => select_by_user st user_id
  end.

(** [await asyncpg.connect(host=..., port=..., ...)]. *)
Definition connect (env : Env) : M unit :=
  match connect_error env with
  | Some msg => raise (PostgresError msg)
  | None => emit Connected
  end.

(** [await conn.execute(sql)] with the schema script of [lifespan]. *)
Definition execute (env : Env) : M unit :=
  let* _ := emit Execute in
  fun w =>
    match execute_outcome env (store w) with
    | inl e => (Raise e, w)
    | inr st' => (Return tt, {| store := st'; trace := trace w |})
    end.

(** [await conn.fetchrow(query, task.title, task.description,
    task.user_id)] with the insert statement of [create_task]. *)
Definition fetchrow (env : Env)
    (title : string) (description : option string) (user_id : string)
  : M PgRecord :=
  let* _ := emit Fetchrow in
  fun w =>
    match fetchrow_outcome env (store w) title description user_id with
    | inl e => (Raise e, w)
    | inr (r, st') => (Return r, {| store := st'; trace := trace w |})
    end.

(** [await conn.fetch(query, user_id)] with the select statement of
    [list_tasks]. *)
Definition fetch (env : Env) (user_id : string) : M (list PgRecord) :=
  let* _ := emit Fetch in
  fun w =>
    match fetch_outcome env (store w) user_id with
    | inl e => (Raise e, w)
    | inr rows => (Return rows, w)
    end.

(** [await conn.close()], which is taken to return: the faults of [Env]
    are those of the connection and of the statement. *)
Definition close : M unit := emit Closed.

(** [record[name]]. *)
Definition getitem (r : PgRecord) (name : string) : M sqlval :=
  match column name r with
  | Some v => ret v
  | None => raise (KeyError name)
  end.

(** The Python value a column value is decoded to. *)
Definition decode (v : sqlval) : value :=
  match v with
  | SqlNull => VNone
  | SqlInt z => VInt z
  | SqlText s => VStr s
  | SqlTimestamp _ => VObject "datetime"
  end.

End asyncpg.

(** ** uuid *)

Module uuid.

(** [uuid.uuid4()]: 128 random bits with the variant and version bits
    forced ([int &= ~(0xc000 << 48); int |= 0x8000 << 48;
    int &= ~(0xf000 << 64); int |= 4 << 76]). *)
Definition uuid4 (random_bytes : N) : N :=
  let int := N.land random_bytes (N.ones 128) in
  let int := N.ldiff int (N.shiftl 0xc000 48) in
  let int := N.lor int (N.shiftl 0x8000 48) in
  let int := N.ldiff int (N.shiftl 0xf000 64) in
  N.lor int (N.shiftl 4 76).

Definition hex_digit (n : N) : ascii :=
  nth (N.to_nat n) (list_ascii_of_string "0123456789abcdef") "0"%char.

(** The [i]-th hexadecimal digit of [x], counted from the least
    significant one. *)
Definition nibble (x : N) (i : nat) : N :=
  N.land (N.shiftr x (4 * N.of_nat i)) 15.

(** ['%032x' % int]. *)
Definition hex32 (x : N) : list ascii :=
  map (fun i => hex_digit (nibble x i)) (rev (seq 0 32)).

(** [str(u)]: the digits grouped 8-4-4-4-12. *)
Definition to_str (x : N) : string :=
  let h := hex32 x in
  string_of_list_ascii
    (take 8 h ++ "-"%char :: take 4 (drop 8 h) ++ "-"%char ::
     take 4 (drop 12 h) ++ "-"%char :: take 4 (drop 16 h) ++ "-"%char ::
     drop 20 h).

End uuid.

(** ** Requests and responses *)

Module Http.

(** Lookup in a multi-dict that keeps, like a Python dict built from the
    items, the last value given for a key: members of a decoded JSON
    object, [request.query_params]. *)
Fixpoint last_value {A} (key : string) (items : list (string * A))
  : option A :=
  match items with
  | [] => None
  | (k, v) :: rest =>
      match last_value key rest with
      | Some v' => Some v'
      | None => if String.eqb k key then Some v else None
      end
  end.

Definition lower_char (c : ascii) : ascii :=
  let n := nat_of_ascii c in
  if ((65 <=? n) && (n <=? 90))%nat then ascii_of_nat (n + 32) else c.

Fixpoint lower (s : string) : string :=
  match s with
  | EmptyString => EmptyString
  | String c s' => String (lower_char c) (lower s')
  end.

(** [headers.get(key)]: header names are stored in lower case, the key
    is lowered before the comparison and the first match is returned. *)
Fixpoint header (key : string) (raw : list (string * string))
  : option string :=
  match raw with
  | [] => None
  | (k, v) :: rest =>
      if String.eqb k (lower key) then Some v else header key rest
  end.

Definition without (key : string) (raw : list (string * string))
  : list (string * string) :=
  filter (fun kv => fst kv <> lower key) raw.

(** [headers[key] = value]: the first entry of that name is replaced and
    later duplicates removed; a new name is appended. *)
Fixpoint set_header (key value : string) (raw : list (string * string))
  : list (string * string) :=
  match raw with
  | [] => [(lower key, value)]
  | (k, v) :: rest =>
      if String.eqb k (lower key)
      then (lower key, value) :: without key rest
      else (k, v) :: set_header key value rest
  end.

Record Request : Type := {
  method : string;
  path : string;
  headers : list (string * string);
  query_params : list (string * string);
  body : option json;
  (** [request.state.logger], unset until the middleware sets it *)
  state_logger : option Logger
}.

Definition set_state_logger (lg : Logger) (r : Request) : Request :=
  {| method := method r; path := path r; headers := headers r;
     query_params := query_params r; body := body r;
     state_logger := Some lg |}.

End Http.
Export Http.

(** ** main.py *)

Module Task.

(** [class Task(BaseModel)]: the body of a create-task request. *)
Record t : Type := {
  title : string;
  description : option string;
  user_id : string
}.

(** Validation of the decoded body against the model: [title] and
    [user_id] are required strings, [description] is a string, null or
    absent.  No field carries a length constraint. *)
Definition validate (body : option json) : option t :=
  match body with
  | Some (JObject members) =>
      match last_value "title" members, last_value "user_id" members with
      | Some (JString title), Some (JString user_id) =>
          match last_value "description" members with
          | None | Some JNull =>
              Some {| title := title; description := None;
                      user_id := user_id |}
          | Some (JString d) =>
              Some {| title := title; description := Some d;
                      user_id := user_id |}
          | Some _ => None
          end
      | _, _ => None
      end
  | _ => None
  end.

(** The rejected input that the error of one field echoes: the whole body
    for a field that is missing, the value for one of a wrong type. *)
Definition field_error (required : bool) (name : string)
    (members : list (string * json)) : list json :=
  match last_value name members with
  | None => if required then [JObject members] else []
  | Some (JString _) => []
  | Some JNull => if required then [JNull] else []
  | Some v => [v]
  end.

(** The inputs echoed by the validation errors of a body, field by field;
    a body that is no object is echoed as a whole, an absent one as
    [None]. *)
Definition error_inputs (body : option json) : list json :=
  match option_map loaded body with
  | Some (JObject members) =>
      field_error true "title" members
      ++ field_error false "description" members
      ++ field_error true "user_id" members
  | Some other => [other]
  | None => [JNull]
  end.

End Task.

Module TaskResponse.

(** [class TaskResponse(BaseModel)]. *)
Record t : Type := {
  id : Z;
  title : string;
  description : option string;
  status : string;
  user_id : string
}.

(** [TaskResponse(id=..., title=..., description=..., status=...,
    user_id=...)]: the constructor checks each argument against the type
    of its field ([description] alone may be [None]). *)
Definition new (id title description status user_id : sqlval) : result t :=
  match id, title, status, user_id with
  | SqlInt i, SqlText tl, SqlText s, SqlText u =>
      match description with
      | SqlText d =>
          Return {| id := i; title := tl; description := Some d;
                    status := s; user_id := u |}
      | SqlNull =>
          Return {| id := i; title := tl; description := None;
                    status := s; user_id := u |}
      | _ => Raise (ValidationError "validation error for TaskResponse")
      end
  | _, _, _, _ => Raise (ValidationError "validation error for TaskResponse")
  end.

End TaskResponse.

Module Main.

Inductive content : Type :=
| Health (fields : list (string * string))
| OneTask (task : TaskResponse.t)
| Tasks (tasks : list TaskResponse.t)
| Detail (detail : string)
| ValidationErrors (loc : string)
| PlainText (text : string).

Record Response : Type := {
  status_code : Z;
  response_headers : list (string * string);
  response_content : content
}.

Definition JSONResponse (status : Z) (c : content) : Response :=
  {| status_code := status;
     response_headers := [("content-type", "application/json")];
     response_content := c |}.

Definition with_header (key value : string) (r : Response) : Response :=
  {| status_code := status_code r;
     response_headers := set_header key value (response_headers r);
     response_content := response_content r |}.

(** [JSONResponse.render] is [json.dumps(content, ensure_ascii=False,
    allow_nan=False, ...).encode("utf-8")]: the error, if any, that it
    raises on a content that echoes these inputs. *)
Definition render_failure (inputs : list json) : option exn :=
  if existsb out_of_range inputs
  then Some (ValueError "Out of range float values are not JSON compliant")
  else if existsb lone_surrogate inputs
       then Some (UnicodeEncodeError
                    "'utf-8' codec can't encode character: surrogates not allowed")
       else None.

(** *** Start-up and shutdown: [lifespan] *)

(** The part of [lifespan] before [yield]. *)
Definition lifespan_startup (env : Env) : M unit :=
  try_except
    (let* _ := asyncpg.connect env in
     let* _ := asyncpg.execute env in
     let* _ := asyncpg.close in
     log INFO ModuleLogger "Database initialized successfully"
       [ ("database", VStr (DB_NAME env));
         ("host", VStr (DB_HOST env));
         ("component", VStr "database") ] false)
    (fun e =>
       log ERROR ModuleLogger
         ("Database initialization failed: " +:+ str e)
         [ ("database", VStr (DB_NAME env));
           ("host", VStr (DB_HOST env));
           ("component", VStr "database");
           ("error_details", VStr (str e)) ] true).

(** The part of [lifespan] after [yield]. *)
Definition lifespan_shutdown : M unit :=
  log INFO ModuleLogger "Service shutting down"
    [ ("component", VStr "application") ] false.

(** *** The handlers *)

Definition get_request_logger_dependency (request : Request) : Logger :=
  match state_logger request with
  | Some lg => lg
  | None => ModuleLogger
  end.

Definition health_check (request_logger : Logger)
  : M (list (string * string)) :=
  let* _ := log INFO request_logger "Health check request received"
              [ ("component", VStr "api") ] false in
  ret [ ("status", "healthy"); ("service", "task-api") ].

(** [TaskResponse(id=row["id"], title=row["title"], ...)]. *)
Definition task_response (row : PgRecord) : M TaskResponse.t :=
  let* id := asyncpg.getitem row "id" in
  let* title := asyncpg.getitem row "title" in
  let* description := asyncpg.getitem row "description" in
  let* status := asyncpg.getitem row "status" in
  let* user_id := asyncpg.getitem row "user_id" in
  of_result (TaskResponse.new id title description status user_id).

Definition database_error (e : exn) : exn :=
  HTTPException 500 ("Database error: " +:+ str e).

(** The body of the [try] block of [create_task]. *)
Definition create_task_try (env : Env) (task : Task.t)
    (request_logger : Logger) : M TaskResponse.t :=
  let* _ := asyncpg.connect env in
  let* result := asyncpg.fetchrow env (Task.title task)
                   (Task.description task) (Task.user_id task) in
  let* _ := asyncpg.close in
  let* task_id := asyncpg.getitem result "id" in
  let* _ := log INFO request_logger "Task created successfully"
              [ ("user_id", VStr (Task.user_id task));
                ("task_id", asyncpg.decode task_id);
                ("component", VStr "api");
                ("operation", VStr "create_task") ] false in
  task_response result.

Definition create_task (env : Env) (task : Task.t)
    (request_logger : Logger) : M TaskResponse.t :=
  let* _ := log INFO request_logger "Creating task for user"
              [ ("user_id", VStr (Task.user_id task));
                ("component", VStr "api");
                ("operation", VStr "create_task") ] false in
  try_except
    (create_task_try env task request_logger)
    (fun e =>
       let* _ := log ERROR request_logger "Error creating task"
                   [ ("user_id", VStr (Task.user_id task));
                     ("error", VStr (str e));
                     ("component", VStr "api");
                     ("operation", VStr "create_task") ] true in
       raise (database_error e)).

(** [[f(row) for row in rows]]. *)
Fixpoint comprehension {A B} (f : A -> M B) (rows : list A) : M (list B) :=
  match rows with
  | [] => ret []
  | row :: rest =>
      let* x := f row in
      let* xs := comprehension f rest in
      ret (x :: xs)
  end.

(** The body of the [try] block of [list_tasks]. *)
Definition list_tasks_try (env : Env) (user_id : string)
    (request_logger : Logger) : M (list TaskResponse.t) :=
  let* _ := asyncpg.connect env in
  let* rows := asyncpg.fetch env user_id in
  let* _ := asyncpg.close in
  let* _ := log INFO request_logger "Tasks retrieved successfully"
              [ ("user_id", VStr user_id);
                ("task_count", VInt (Z.of_nat (length rows)));
                ("component", VStr "api");
                ("operation", VStr "list_tasks") ] false in
  comprehension task_response rows.

Definition list_tasks (env : Env) (user_id : string)
    (request_logger : Logger) : M (list TaskResponse.t) :=
  let* _ := log INFO request_logger "Fetching tasks for user"
              [ ("user_id", VStr user_id);
                ("component", VStr "api");
                ("operation", VStr "list_tasks") ] false in
  try_except
    (list_tasks_try env user_id request_logger)
    (fun e =>
       let* _ := log ERROR request_logger "Error listing tasks for user"
                   [ ("user_id", VStr user_id);
                     ("error", VStr (str e));
                     ("component", VStr "api");
                     ("operation", VStr "list_tasks") ] true in
       raise (database_error e)).

(** *** The middleware: [request_middleware] *)

Definition contains (key : string) (items : list (string * string)) : bool :=
  existsb (fun kv => String.eqb (fst kv) key) items.

(** [user_id = None
     if "X-User-ID" in request.headers: user_id = request.headers.get(...)
     elif "user_id" in request.query_params:
         user_id = request.query_params.get("user_id")]. *)
Definition extract_user_id (request : Request) : option string :=
  if contains (lower "X-User-ID") (headers request)
  then header "X-User-ID" (headers request)
  else if contains "user_id" (query_params request)
       then last_value "user_id" (query_params request)
       else None.

(** [extra_context = {"request_id": ..., "path": ..., "method": ...}
     if user_id: extra_context["user_id"] = user_id]. *)
Definition extra_context (request_id : string) (request : Request) : kwargs :=
  let user_id := extract_user_id request in
  [ ("request_id", VStr request_id);
    ("path", VStr (path request));
    ("method", VStr (method request)) ]
  ++ match user_id with
     | Some u => if truthy user_id then [("user_id", VStr u)] else []
     | None => []
     end.

Definition or_empty (o : option string) : string :=
  match o with
  | Some s => s
  | None => EmptyString
  end.

Definition request_middleware (env : Env) (request : Request)
    (call_next : Request -> M Response) : M Response :=
  let request_id := uuid.to_str (uuid.uuid4 (urandom env)) in
  let logger := LoggerAdapter (extra_context request_id request) in
  let request := set_state_logger logger request in
  let start_time := time_start env in
  try_except
    (let* response := call_next request in
     let duration_ms := ((time_end env - start_time) * 1000)%Q in
     let* _ :=
       log INFO logger
         ("Request completed: " +:+ method request +:+ " " +:+ path request)
         [ ("status_code", VInt (status_code response));
           ("duration_ms", VFloat duration_ms);
           ("content_type",
            VStr (or_empty (header "content-type"
                              (response_headers response))));
           ("user_agent", VStr (or_empty (header "user-agent"
                                            (headers request))));
           ("referer", VStr (or_empty (header "referer"
                                         (headers request))));
           ("component", VStr "http");
           ("operation", VStr "request") ] false in
     ret (with_header "X-Request-ID" request_id response))
    (fun e =>
       let duration_ms := ((time_end env - start_time) * 1000)%Q in
       let* _ :=
         log ERROR logger
           ("Request failed: " +:+ method request +:+ " " +:+ path request)
           [ ("duration_ms", VFloat duration_ms);
             ("error", VStr (str e));
             ("component", VStr "http");
             ("operation", VStr "request") ] true in
       raise e).

(** *** The application: [app = FastAPI(...)] with its routes *)

(** The three routes declared in [main.py].  The arguments of a handler
    are validated before it is called; a request that fails validation
    raises [RequestValidationError] and the handler is not called.  A
    request that matches none of the three routes is answered by the
    framework on its own (documentation pages, 404, 405, CORS
    preflight): [framework] stands for that answer. *)
Definition router (env : Env) (framework : Request -> Response)
    (request : Request) : M Response :=
  let request_logger := get_request_logger_dependency request in
  if String.eqb (method request) "GET"
     && String.eqb (path request) "/health"
  then
    let* r := health_check request_logger in
    ret (JSONResponse 200 (Health r))
  else if String.eqb (method request) "POST"
          && String.eqb (path request) "/tasks"
  then
    match Task.validate (body request) with
    | None =>
        raise (RequestValidationError "body"
                 (Task.error_inputs (body request)))
    | Some task =>
        let* r := create_task env task request_logger in
        ret (JSONResponse 200 (OneTask r))
    end
  else if String.eqb (method request) "GET"
          && String.eqb (path request) "/tasks"
  then
    match last_value "user_id" (query_params request) with
    | None => raise (RequestValidationError "query.user_id" [JNull])
    | Some user_id =>
        let* r := list_tasks env user_id request_logger in
        ret (JSONResponse 200 (Tasks r))
    end
  else ret (framework request).

(** The exception handlers FastAPI installs around the routes:
    [HTTPException] becomes a response with its status code and detail,
    [RequestValidationError] a 422 response whose content lists the errors
    with the input each one rejected.  That content has to be rendered:
    when it cannot be, the handler raises in its turn.  Anything else goes
    on. *)
Definition exception_handlers (inner : M Response) : M Response :=
  try_except inner
    (fun e =>
       match e with
       | HTTPException status detail =>
           ret (JSONResponse status (Detail detail))
       | RequestValidationError loc inputs =>
           match render_failure inputs with
           | None => ret (JSONResponse 422 (ValidationErrors loc))
           | Some error => raise error
           end
       | _ => raise e
       end).

(** The outermost layer of the framework: an exception that reaches it
    becomes a bare 500 response. *)
Definition server_error_middleware (inner : M Response) : M Response :=
  try_except inner
    (fun _ =>
       ret {| status_code := 500;
              response_headers :=
                [("content-type", "text/plain; charset=utf-8")];
              response_content := PlainText "Internal Server Error" |}).

(** One request through the whole stack. *)
Definition app (env : Env) (framework : Request -> Response)
    (request : Request) : M Response :=
  server_error_middleware
    (request_middleware env request
       (fun r => exception_handlers (router env framework r))).

(** *** The class middleware: [RequestContextMiddleware]

    Declared in [main.py] and not added to the application. *)
Definition RequestContextMiddleware (env : Env) (request : Request)
    (call_next : Request -> M Response) : M Response :=
  let request_id := uuid.to_str (uuid.uuid4 (urandom env)) in
  let logger_adapter := LoggerAdapter [("request_id", VStr request_id)] in
  let request := set_state_logger logger_adapter request in
  let* response := call_next request in
  ret response.

End Main.
Export Main.

(** ** logger.py *)

Module logger.

(** A [logging.LogRecord].  [name] and [levelname] are read by attribute;
    [attributes] holds the rest of the instance dictionary: the other
    attributes set by the logging library and the fields of the call's
    [extra], which the library copies into the record. *)
Record LogRecord : Type := {
  name : string;
  levelname : string;
  attributes : kwargs
}.

(** [record.__dict__.items()]. *)
Definition __dict__ (record : LogRecord) : kwargs :=
  ("name", VStr (name record)) :: ("levelname", VStr (levelname record))
  :: attributes record.

(** [isinstance(value, (str, int, float, bool, list, dict, type(None)))]. *)
Definition json_serializable (v : value) : bool :=
  match v with
  | VStr _ | VInt _ | VFloat _ | VBool _ | VList _ | VDict _ | VNone => true
  | VTuple _ | VObject _ => false
  end.

Definition skipped : list string :=
  [ "args"; "exc_info"; "exc_text"; "stack_info"; "message" ].

Section SimpleJsonFormatter.

(** [JsonFormatter.add_fields], the method of the base class, which
    belongs to the python-json-logger package. *)
Variable super_add_fields :
  gmap string value -> LogRecord -> gmap string value -> gmap string value.

(** The names bound in the class [logging.LogRecord]: the keys of
    [logging.LogRecord.__dict__]. *)
Variable LogRecord_class_dict : list string.

(** [datetime.now(timezone.utc).isoformat()]. *)
Variable now_isoformat : string.

(** One turn of the loop over [record.__dict__.items()]. *)
Definition add_attribute (log_record : gmap string value)
    (item : string * value) : gmap string value :=
  let '(key, value) := item in
  if bool_decide (key ∉ LogRecord_class_dict)
     && bool_decide (key ∉ skipped)
  then if json_serializable value
       then <[key := value]> log_record
       else log_record
  else log_record.

(** [SimpleJsonFormatter.add_fields]: the dictionary is updated in
    place in the source and returned here. *)
Definition add_fields (log_record : gmap string value)
    (record : LogRecord) (message_dict : gmap string value)
  : gmap string value :=
  let log_record := super_add_fields log_record record message_dict in
  let log_record := <["timestamp" := VStr now_isoformat]> log_record in
  let log_record := <["level" := VStr (levelname record)]> log_record in
  let log_record := <["logger" := VStr (name record)]> log_record in
  fold_left add_attribute (__dict__ record) log_record.

End SimpleJsonFormatter.

(** *** The base formatter and the class dictionary of CPython

    What the two parameters above are in a running service, as published
    by python-json-logger and CPython. *)

(** [RESERVED_ATTRS] of python-json-logger. *)
Definition RESERVED_ATTRS : list string :=
  [ "args"; "asctime"; "created"; "exc_info"; "exc_text"; "filename";
    "funcName"; "levelname"; "levelno"; "lineno"; "module"; "msecs";
    "message"; "msg"; "name"; "pathname"; "process"; "processName";
    "relativeCreated"; "stack_info"; "thread"; "threadName" ].

(** [merge_record_extra(record, target, reserved)]: every attribute of
    the record that is neither reserved nor private is copied. *)
Definition merge_record_extra (record : LogRecord)
    (target : gmap string value) (reserved : list string)
  : gmap string value :=
  fold_left
    (fun target item =>
       if bool_decide (fst item ∉ reserved)
          && negb (String.prefix "_" (fst item))
       then <[fst item := snd item]> target
       else target)
    (__dict__ record) target.

(** [JsonFormatter.add_fields] for the format string ["%(message)s"] that
    [get_logger] passes: the one required field is [message]. *)
Definition JsonFormatter_add_fields (log_record : gmap string value)
    (record : LogRecord) (message_dict : gmap string value)
  : gmap string value :=
  let message :=
    match get "message" (__dict__ record) with
    | Some v => v
    | None => VNone
    end in
  let log_record := <["message" := message]> log_record in
  let log_record := message_dict ∪ log_record in
  merge_record_extra record log_record ("message" :: RESERVED_ATTRS).

(** The keys of [logging.LogRecord.__dict__] in CPython. *)
Definition CPython_LogRecord_class_dict : list string :=
  [ "__module__"; "__doc__"; "__init__"; "__repr__"; "getMessage";
    "__dict__"; "__weakref__" ].

(** *** [get_logger]

    [logging.getLogger(name)] hands out one logger object per name, kept by
    the logging library: the loggers are a map from names to their state,
    and [get_logger] updates the state of the one it configures. *)

(** A [logging.StreamHandler] with its stream and the format string of the
    [SimpleJsonFormatter] set on it. *)
Record Handler : Type := {
  stream : string;
  fmt : string
}.

Record LoggerState : Type := {
  lg_level : Z;
  lg_handlers : list Handler;
  lg_propagate : bool
}.

(** [logging.getLogger(name)]: a logger not seen before starts with level
    [NOTSET], no handler, and propagation to the root logger. *)
Definition getLogger (name : string) (manager : gmap string LoggerState)
  : LoggerState :=
  match manager !! name with
  | Some l => l
  | None => {| lg_level := 0; lg_handlers := []; lg_propagate := true |}
  end.

(** [logging.INFO], the default of [log_level]. *)
Definition INFO_level : Z := 20.

Definition get_logger (name : string) (log_level : Z)
    (manager : gmap string LoggerState) : gmap string LoggerState :=
  let logger := getLogger name manager in
  let logger := {| lg_level := log_level;
                   lg_handlers := lg_handlers logger;
                   lg_propagate := lg_propagate logger |} in
  let logger :=
    match lg_handlers logger with
    | [] => logger
    | _ :: _ => {| lg_level := lg_level logger;
                   lg_handlers := [];
                   lg_propagate := lg_propagate logger |}
    end in
  let console_handler := {| stream := "sys.stdout"; fmt := "%(message)s" |} in
  let logger := {| lg_level := lg_level logger;
                   lg_handlers := lg_handlers logger ++ [console_handler];
                   lg_propagate := lg_propagate logger |} in
  let logger := {| lg_level := lg_level logger;
                   lg_handlers := lg_handlers logger;
                   lg_propagate := false |} in
  <[name := logger]> manager.

(** *** [get_request_logger] *)

(** [d[key] = value] on an insertion-ordered dict: the value of a key that
    is there is replaced in place, a new key is appended. *)
Fixpoint dict_set (key : string) (v : value) (d : kwargs) : kwargs :=
  match d with
  | [] => [(key, v)]
  | (k, x) :: d' =>
      if String.eqb k key then (k, v) :: d' else (k, x) :: dict_set key v d'
  end.

(** [get_request_logger(logger, request_id, **context)]: the adapter around
    [logger], the module logger in this service, with its [extra]. *)
Definition get_request_logger (request_id : string) (context : kwargs)
  : Logger :=
  let extra := [("request_id", VStr request_id)] in
  LoggerAdapter
    (fold_left
       (fun extra item =>
          if json_serializable (snd item)
          then dict_set (fst item) (snd item) extra
          else extra)
       context extra).

End logger.

(** ** Vocabulary of the statements *)

(** The world after some more events, the store untouched. *)
Definition extend (w : World) (evs : list event) : World :=
  {| store := store w; trace := trace w ++ evs |}.

(** The log records of the two handlers and of the start-up hook. *)
Definition create_started (task : Task.t) (lg : Logger) : event :=
  Logged INFO lg "Creating task for user"
    [ ("user_id", VStr (Task.user_id task)); ("component", VStr "api");
      ("operation", VStr "create_task") ] false.

Definition create_failed (task : Task.t) (lg : Logger) (e : exn) : event :=
  Logged ERROR lg "Error creating task"
    [ ("user_id", VStr (Task.user_id task)); ("error", VStr (str e));
      ("component", VStr "api"); ("operation", VStr "create_task") ] true.

Definition create_succeeded (task : Task.t) (lg : Logger) (id : Z) : event :=
  Logged INFO lg "Task created successfully"
    [ ("user_id", VStr (Task.user_id task)); ("task_id", VInt id);
      ("component", VStr "api"); ("operation", VStr "create_task") ] false.

Definition list_started (user_id : string) (lg : Logger) : event :=
  Logged INFO lg "Fetching tasks for user"
    [ ("user_id", VStr user_id); ("component", VStr "api");
      ("operation", VStr "list_tasks") ] false.

Definition list_failed (user_id : string) (lg : Logger) (e : exn) : event :=
  Logged ERROR lg "Error listing tasks for user"
    [ ("user_id", VStr user_id); ("error", VStr (str e));
      ("component", VStr "api"); ("operation", VStr "list_tasks") ] true.

Definition list_succeeded (user_id : string) (lg : Logger) (n : nat) : event :=
  Logged INFO lg "Tasks retrieved successfully"
    [ ("user_id", VStr user_id); ("task_count", VInt (Z.of_nat n));
      ("component", VStr "api"); ("operation", VStr "list_tasks") ] false.

Definition bootstrap_failed (env : Env) (e : exn) : event :=
  Logged ERROR ModuleLogger ("Database initialization failed: " +:+ str e)
    [ ("database", VStr (DB_NAME env)); ("host", VStr (DB_HOST env));
      ("component", VStr "database"); ("error_details", VStr (str e)) ] true.

(** The identifier the middleware generates for a request. *)
Definition request_id (env : Env) : string :=
  uuid.to_str (uuid.uuid4 (urandom env)).

(** The logger the middleware stores in [request.state.logger]. *)
Definition request_logger (env : Env) (request : Request) : Logger :=
  LoggerAdapter (extra_context (request_id env) request).

(** The record the middleware logs when [call_next] has returned. *)
Definition completed (env : Env) (request : Request) (response : Response)
  : event :=
  Logged INFO (request_logger env request)
    ("Request completed: " +:+ method request +:+ " " +:+ path request)
    [ ("status_code", VInt (status_code response));
      ("duration_ms", VFloat ((time_end env - time_start env) * 1000)%Q);
      ("content_type",
       VStr (or_empty (header "content-type" (response_headers response))));
      ("user_agent", VStr (or_empty (header "user-agent" (headers request))));
      ("referer", VStr (or_empty (header "referer" (headers request))));
      ("component", VStr "http");
      ("operation", VStr "request") ] false.

(** The record the middleware logs when [call_next] has raised. *)
Definition request_failed (env : Env) (request : Request) (e : exn) : event :=
  Logged ERROR (request_logger env request)
    ("Request failed: " +:+ method request +:+ " " +:+ path request)
    [ ("duration_ms", VFloat ((time_end env - time_start env) * 1000)%Q);
      ("error", VStr (str e));
      ("component", VStr "http");
      ("operation", VStr "request") ] true.

(** The answer of the outermost layer to an exception that reaches it. *)
Definition internal_server_error : Response :=
  {| status_code := 500;
     response_headers := [("content-type", "text/plain; charset=utf-8")];
     response_content := PlainText "Internal Server Error" |}.

(** The request is a create-task request that fails validation, and the 422
    that would answer it cannot be rendered. *)
Definition unrenderable (request : Request) : bool :=
  String.eqb (method request) "POST" && String.eqb (path request) "/tasks"
  && match Task.validate (body request) with
     | Some _ => false
     | None =>
         match render_failure (Task.error_inputs (body request)) with
         | Some _ => true
         | None => false
         end
     end.

(** What a [VARCHAR(255)] column holds of a text it has accepted: the text
    itself when it has at most 255 characters, its first 255 characters
    when it is longer, which takes an excess made of spaces only. *)
Definition stored_as (input stored : string) : Prop :=
  ((char_length input <= 255)%nat /\ stored = input)
  \/ ((255 < char_length input)%nat
      /\ all_spaces (excess 255 input) = true
      /\ stored = clip 255 input
      /\ char_length stored = 255%nat).

(** The store accepts the insert of a task: the table exists, no text of
    the task holds U+0000, title and user_id go into their columns, and
    the sequence gives a value within its range that is not the id of a
    row. *)
Definition insertable (st : Store) (task : Task.t) : Prop :=
  exists rows,
    tasks st = Some rows /\
    has_nul (Task.title task) = false /\
    from_option has_nul false (Task.description task) = false /\
    has_nul (Task.user_id task) = false /\
    is_Some (varchar 255 (Task.title task)) /\
    is_Some (varchar 255 (Task.user_id task)) /\
    tasks_id_seq st <= int4_max /\
    tasks_id_seq st ∉ map r_id rows.

(** What [call_next] is for the middleware inside [app]. *)
Definition routes (env : Env) (framework : Request -> Response)
    (request : Request) : M Response :=
  exception_handlers
    (router env framework
       (set_state_logger (request_logger env request) request)).

(** A response shows a row: same id, title, description and user_id, and
    the status of the row, which is not null. *)
Definition shows (r : Row) (t : TaskResponse.t) : Prop :=
  TaskResponse.id t = r_id r /\
  TaskResponse.title t = r_title r /\
  TaskResponse.description t = r_description r /\
  r_status r = Some (TaskResponse.status t) /\
  TaskResponse.user_id t = r_user_id r.

(** The rows the select statement of [list_tasks] yields. *)
Definition select_rows (user_id : string) (rows : list Row) : list Row :=
  merge_sort id_desc (matching user_id rows).

(** The persistence failure, if any, that a run of each handler or of the
    start-up hook meets: the connection first, then the statement. *)
Definition create_failure (env : Env) (st : Store) (task : Task.t)
  : option exn :=
  match connect_error env with
  | Some msg => Some (PostgresError msg)
  | None =>
      match asyncpg.fetchrow_outcome env st (Task.title task)
              (Task.description task) (Task.user_id task) with
      | inl e => Some e
      | inr _ => None
      end
  end.

Definition list_failure (env : Env) (st : Store) (user_id : string)
  : option exn :=
  match connect_error env with
  | Some msg => Some (PostgresError msg)
  | None =>
      match asyncpg.fetch_outcome env st user_id with
      | inl e => Some e
      | inr _ => None
      end
  end.

Definition bootstrap_failure (env : Env) (st : Store) : option exn :=
  match connect_error env with
  | Some msg => Some (PostgresError msg)
  | None =>
      match asyncpg.execute_outcome env st with
      | inl e => Some e
      | inr _ => None
      end
  end.

Definition nonempty (s : string) : bool :=
  match s with
  | EmptyString => false
  | String _ _ => true
  end.

(** A computation that leaves the store as it found it. *)
Definition keeps_store {A} (m : M A) : Prop :=
  forall w, store (snd (m w)) = store w.

(** Every row of the table has a status. *)
Definition status_set (st : Store) : Prop :=
  forall rows,
    tasks st = Some rows -> Forall (fun r => is_Some (r_status r)) rows.

Definition preserves_status {A} (m : M A) : Prop :=
  forall w, status_set (store w) -> status_set (store (snd (m w))).

(** The worlds the service can be in, started from [w0]: the start-up hook
    and requests, in any number and order. *)
Inductive reachable (w0 : World) : World -> Prop :=
| reach_initial : reachable w0 w0
| reach_startup env w :
    reachable w0 w -> reachable w0 (snd (lifespan_startup env w))
| reach_request env fw req w :
    reachable w0 w -> reachable w0 (snd (app env fw req w)).

(** ** Concrete runs *)

Module Sample.

(** The store answers. *)
Definition quiet : Env :=
  {| urandom := 0x1f2e3d4c5b6a79880123456789abcdef%N;
     connect_error := None;
     statement_error := None;
     current_timestamp := 1700000000;
     time_start := 10;
     time_end := 11;
     DB_NAME := "taskdb";
     DB_HOST := "postgres" |}.

(** The store cannot be reached. *)
Definition unreachable : Env :=
  {| urandom := urandom quiet;
     connect_error := Some "connection refused";
     statement_error := None;
     current_timestamp := 1700000000;
     time_start := 10;
     time_end := 11;
     DB_NAME := "taskdb";
     DB_HOST := "postgres" |}.

(** The connection is established and lost while the statement runs. *)
Definition interrupted : Env :=
  {| urandom := urandom quiet;
     connect_error := None;
     statement_error :=
       Some "connection was closed in the middle of operation";
     current_timestamp := 1700000000;
     time_start := 10;
     time_end := 11;
     DB_NAME := "taskdb";
     DB_HOST := "postgres" |}.

(** A database without the [tasks] table, and the same after start-up. *)
Definition blank : World :=
  {| store := {| tasks := None; tasks_id_seq := 1 |}; trace := [] |}.

Definition ready : World := snd (lifespan_startup quiet blank).

Definition not_found (_ : Request) : Response :=
  JSONResponse 404 (Detail "Not Found").

Definition post_tasks (members : list (string * json)) : Request :=
  {| method := "POST"; path := "/tasks"; headers := [];
     query_params := []; body := Some (JObject members);
     state_logger := None |}.

Definition get_tasks (user_id : string) : Request :=
  {| method := "GET"; path := "/tasks"; headers := [];
     query_params := [("user_id", user_id)]; body := None;
     state_logger := None |}.

(** [GET /tasks?user_id=u1] sent with an empty [X-User-ID] header. *)
Definition empty_header : Request :=
  {| method := "GET"; path := "/tasks"; headers := [("x-user-id", EmptyString)];
     query_params := [("user_id", "u1")]; body := None;
     state_logger := None |}.

Definition buy_milk : Task.t :=
  {| Task.title := "Buy milk"; Task.description := None;
     Task.user_id := "u1" |}.

(** 255 letters followed by one space. *)
Definition padded : string :=
  string_of_list_ascii (repeat "a"%char 255 ++ [" "%char]).

Definition padded_task : Task.t :=
  {| Task.title := padded; Task.description := None; Task.user_id := "u1" |}.

(** 200 times the letter e with an acute accent, two bytes each, followed
    by 55 letters: 255 characters in 455 bytes. *)
Definition accented : string :=
  string_of_list_ascii
    (concat (repeat [ascii_of_nat 195; ascii_of_nat 169] 200)
     ++ repeat "a"%char 55).

(** A text that ends in the character U+0000. *)
Definition with_nul : string := "u1" +:+ String zero EmptyString.

(** 256 letters. *)
Definition overlong_task : Task.t :=
  {| Task.title := string_of_list_ascii (repeat "a"%char 256);
     Task.description := None; Task.user_id := "u1" |}.

Definition three_rows : list Row :=
  [ {| r_id := 1; r_title := "Buy milk"; r_description := None;
       r_status := Some "pending"; r_user_id := "u1";
       r_created_at := 1700000000 |};
    {| r_id := 2; r_title := "Pay rent"; r_description := Some "by Friday";
       r_status := Some "pending"; r_user_id := "u2";
       r_created_at := 1700000050 |};
    {| r_id := 3; r_title := "Call Ann"; r_description := None;
       r_status := Some "pending"; r_user_id := "u1";
       r_created_at := 1700000100 |} ].

Definition busy : World :=
  {| store := {| tasks := Some three_rows; tasks_id_seq := 4 |};
     trace := [] |}.

(** A table holding a row that some other client stored without status. *)
Definition foreign : World :=
  {| store :=
       {| tasks :=
            Some [ {| r_id := 1; r_title := "Imported"; r_description := None;
                      r_status := None; r_user_id := "u1";
                      r_created_at := 1700000000 |} ];
          tasks_id_seq := 2 |};
     trace := [] |}.

(** A table whose sequence has given out its last value. *)
Definition exhausted : World :=
  {| store := {| tasks := Some three_rows; tasks_id_seq := 2147483648 |};
     trace := [] |}.

(** The record of [logger.info("Task created successfully",
    extra={"task_id": 1, "deadline": <a datetime>, "__doc__": "notes"})]. *)
Definition sample_record : logger.LogRecord :=
  {| logger.name := "task-api";
     logger.levelname := "INFO";
     logger.attributes :=
       [ ("msg", VStr "Task created successfully"); ("args", VTuple []);
         ("levelno", VInt 20); ("exc_info", VNone); ("exc_text", VNone);
         ("stack_info", VNone); ("lineno", VInt 275);
         ("funcName", VStr "create_task");
         ("task_id", VInt 1);
         ("deadline", VObject "datetime");
         ("__doc__", VStr "notes");
         ("message", VStr "Task created successfully") ] |}.

(** What [SimpleJsonFormatter.add_fields] leaves in the dictionary for that
    record, with the base formatter and the class dictionary of a running
    service. *)
Definition emitted : gmap string value :=
  logger.add_fields logger.JsonFormatter_add_fields
    logger.CPython_LogRecord_class_dict "2024-05-01T12:00:00+00:00"
    ∅ sample_record ∅.

End Sample.
Import Sample.

(** ** Vocabulary of the further properties *)

(** A log record went through the logger [lg]; the events of the database
    are through no logger. *)
Definition logged_via (lg : Logger) (ev : event) : Prop :=
  match ev with
  | Logged _ via _ _ _ => via = lg
  | _ => True
  end.

(** A computation that only adds events to the trace, its log records all
    through [lg]. *)
Definition traces_via {A} (lg : Logger) (m : M A) : Prop :=
  forall w,
    exists evs,
      trace (snd (m w)) = trace w ++ evs /\ Forall (logged_via lg) evs.

Definition database_event (ev : event) : bool :=
  match ev with
  | Logged _ _ _ _ _ => false
  | _ => true
  end.

(** The ids of the table are distinct and below the next value of the
    sequence. *)
Definition keyed (st : Store) : Prop :=
  forall rows,
    tasks st = Some rows ->
    Forall (fun r => r_id r < tasks_id_seq st) rows /\ NoDup (map r_id rows).

(** A computation that keeps a property of the store. *)
Definition maintains {A} (P : Store -> Prop) (m : M A) : Prop :=
  forall w, P (store w) -> P (store (snd (m w))).

(** One turn of the loop of [get_request_logger]. *)
Definition keep_serializable (extra : kwargs) (item : string * value)
  : kwargs :=
  if logger.json_serializable (snd item)
  then logger.dict_set (fst item) (snd item) extra
  else extra.

Module Scenario.

(** [call_next] of a handler chain that lets a failure through. *)
Definition failing_call_next (_ : Request) : M Response :=
  raise (KeyError "boom").

(** A response that already has two headers of the name the middleware
    sets, and two cookies. *)
Definition echoing_call_next (_ : Request) : M Response :=
  ret {| status_code := 201;
         response_headers :=
           [ ("content-type", "application/json");
             ("x-request-id", "from-upstream");
             ("set-cookie", "a=1");
             ("x-request-id", "again");
             ("set-cookie", "b=2") ];
         response_content := Detail "made" |}.

(** A started service that has created one task. *)
Definition served : World :=
  snd (app quiet not_found
         (post_tasks [("title", JString "Buy milk");
                      ("user_id", JString "u1")])
         ready).

(** A started service that has created three tasks, for two users. *)
Definition stocked : World :=
  snd (app quiet not_found
         (post_tasks [("title", JString "Call Ann");
                      ("user_id", JString "u1")])
         (snd (app quiet not_found
                 (post_tasks [("title", JString "Pay rent");
                              ("description", JString "by Friday");
                              ("user_id", JString "u2")])
                 served))).

Definition water_plants : Task.t :=
  {| Task.title := "Water plants"; Task.description := None;
     Task.user_id := "u1" |}.

(** Create-task bodies that fail validation and hold a value that JSON
    cannot render: a title that is not a number, and a member next to a
    missing user_id. *)
Definition nan_title : Request :=
  post_tasks [("title", JFloat NaN); ("user_id", JString "u1")].

Definition infinite_extra : Request :=
  post_tasks [("title", JString "Buy milk");
              ("priority", JFloat (Infinity false))].

Definition get_health : Request :=
  {| method := "GET"; path := "/health"; headers := [];
     query_params := []; body := None; state_logger := None |}.

Definition get_tasks_bare : Request :=
  {| method := "GET"; path := "/tasks"; headers := [];
     query_params := [("limit", "10")]; body := None;
     state_logger := None |}.

(** A logger that was configured twice by hand before. *)
Definition crowded : gmap string logger.LoggerState :=
  {[ "task-api" :=
       {| logger.lg_level := 10;
          logger.lg_handlers :=
            [ {| logger.stream := "sys.stderr"; logger.fmt := "%(msg)s" |};
              {| logger.stream := "sys.stdout";
                 logger.fmt := "%(message)s" |} ];
          logger.lg_propagate := true |} ]}.

(** A record whose call passed a datetime as deadline and, under the name
    level, a tuple. *)
Definition shadowing_record : logger.LogRecord :=
  {| logger.name := "task-api";
     logger.levelname := "INFO";
     logger.attributes :=
       [ ("msg", VStr "Task created successfully");
         ("deadline", VObject "datetime");
         ("level", VTuple [VInt 3]) ] |}.

Definition request_context : kwargs :=
  [ ("path", VStr "/tasks"); ("attempt", VInt 2);
    ("deadline", VObject "datetime"); ("tags", VTuple [VStr "a"]) ].

End Scenario.
Import Scenario.

(** * Properties *)

(** ** Traces *)

Lemma extend_extend w a b : extend (extend w a) b = extend w (a ++ b).
Proof. unfold extend; simpl. by rewrite app_assoc. Qed.

Ltac unfold_events :=
  unfold create_started, create_failed, create_succeeded,
    list_started, list_failed, list_succeeded in *.

Ltac in_trace :=
  unfold_events; rewrite !elem_of_cons; auto 10.

Ltac not_in_trace :=
  let H := fresh in
  unfold_events; intros H; rewrite !elem_of_cons, elem_of_nil in H;
  intuition discriminate.

(** ** The handlers, path by path *)

Lemma task_response_shows r t w :
  shows r t -> task_response (selected_columns r) w = (Return t, w).
Proof.
  destruct r as [i tl d s u c], t as [i' tl' d' s' u'].
  unfold shows; simpl. intros (-> & -> & -> & -> & ->).
  destruct d; reflexivity.
Qed.

Lemma task_response_null r w :
  r_status r = None ->
  task_response (selected_columns r) w =
  (Raise (ValidationError "validation error for TaskResponse"), w).
Proof. destruct r as [i tl [d|] s u c]; simpl; intros ->; reflexivity. Qed.

Lemma create_task_unfold env task lg w :
  create_task env task lg w =
  match create_task_try env task lg (extend w [create_started task lg]) with
  | (Return a, w') => (Return a, w')
  | (Raise e, w') =>
      (Raise (database_error e), extend w' [create_failed task lg e])
  end.
Proof.
  unfold create_task, try_except, bind, log. simpl.
  fold (extend w [create_started task lg]).
  destruct (create_task_try _ _ _ _) as [[a|e] w']; reflexivity.
Qed.

Lemma list_tasks_unfold env u lg w :
  list_tasks env u lg w =
  match list_tasks_try env u lg (extend w [list_started u lg]) with
  | (Return a, w') => (Return a, w')
  | (Raise e, w') =>
      (Raise (database_error e), extend w' [list_failed u lg e])
  end.
Proof.
  unfold list_tasks, try_except, bind, log. simpl.
  fold (extend w [list_started u lg]).
  destruct (list_tasks_try _ _ _ _) as [[a|e] w']; reflexivity.
Qed.

Lemma create_task_connect_fails env task lg w msg :
  connect_error env = Some msg ->
  create_task env task lg w =
  (Raise (database_error (PostgresError msg)),
   extend w [create_started task lg;
             create_failed task lg (PostgresError msg)]).
Proof.
  intros H. rewrite create_task_unfold.
  unfold create_task_try, bind, asyncpg.connect. rewrite H. simpl.
  by rewrite extend_extend.
Qed.

Lemma create_task_statement_fails env task lg w e :
  connect_error env = None ->
  asyncpg.fetchrow_outcome env (store w) (Task.title task)
    (Task.description task) (Task.user_id task) = inl e ->
  create_task env task lg w =
  (Raise (database_error e),
   extend w [create_started task lg; Connected; Fetchrow;
             create_failed task lg e]).
Proof.
  intros H1 H2. rewrite create_task_unfold.
  unfold create_task_try, bind, asyncpg.connect, asyncpg.fetchrow.
  rewrite H1. simpl. unfold bind. simpl. rewrite H2. simpl.
  unfold extend. simpl. by rewrite <- !app_assoc.
Qed.

Lemma new_row_status now st title description user_id row :
  new_row now st title description user_id = Some row ->
  r_status row = Some "pending".
Proof.
  unfold new_row.
  destruct (varchar 255 title), (varchar 255 user_id); try discriminate.
  by intros [= <-].
Qed.

Lemma new_row_id now st title description user_id row :
  new_row now st title description user_id = Some row ->
  r_id row = tasks_id_seq st.
Proof.
  unfold new_row.
  destruct (varchar 255 title), (varchar 255 user_id); try discriminate.
  by intros [= <-].
Qed.

Lemma fetchrow_outcome_inr env st title description user_id rec st' :
  asyncpg.fetchrow_outcome env st title description user_id = inr (rec, st') ->
  exists rows row,
    statement_error env = None /\
    tasks st = Some rows /\
    new_row (current_timestamp env) st title description user_id = Some row /\
    rec = selected_columns row /\
    st' = {| tasks := Some (rows ++ [row]);
             tasks_id_seq := tasks_id_seq st + 1 |}.
Proof.
  unfold asyncpg.fetchrow_outcome, insert_returning.
  destruct (statement_error env); [done|].
  destruct (tasks st) as [rows|]; [|done].
  destruct (has_nul title || from_option has_nul false description
            || has_nul user_id); [done|].
  destruct (new_row _ _ _ _ _) as [row|]; [|done].
  destruct (int4_max <? r_id row)%Z; [done|].
  destruct (bool_decide _); [done|].
  intros [= <- <-]. by exists rows, row.
Qed.

(** What the store has checked when the insert goes through. *)
Lemma fetchrow_outcome_checked env st title description user_id rec st' :
  asyncpg.fetchrow_outcome env st title description user_id = inr (rec, st') ->
  has_nul title = false /\
  from_option has_nul false description = false /\
  has_nul user_id = false /\
  tasks_id_seq st <= int4_max /\
  forall rows, tasks st = Some rows -> tasks_id_seq st ∉ map r_id rows.
Proof.
  unfold asyncpg.fetchrow_outcome, insert_returning.
  destruct (statement_error env); [done|].
  destruct (tasks st) as [rows|]; [|done].
  destruct (has_nul title) eqn:H1; [done|].
  destruct (from_option has_nul false description) eqn:H2; [done|].
  destruct (has_nul user_id) eqn:H3; [done|]. cbn [orb].
  destruct (new_row _ _ _ _ _) as [row|] eqn:Hrow; [|done].
  rewrite (new_row_id _ _ _ _ _ _ Hrow).
  destruct (Z.ltb_spec int4_max (tasks_id_seq st)); [done|].
  destruct (bool_decide_reflect (tasks_id_seq st ∈ map r_id rows)); [done|].
  intros _. repeat split; try done; try lia.
  by intros rows' [= <-].
Qed.

(** And the other way round: what it takes for the insert to go
    through. *)
Lemma fetchrow_outcome_accepts env st rows title description user_id t u :
  statement_error env = None ->
  tasks st = Some rows ->
  has_nul title = false ->
  from_option has_nul false description = false ->
  has_nul user_id = false ->
  varchar 255 title = Some t ->
  varchar 255 user_id = Some u ->
  tasks_id_seq st <= int4_max ->
  tasks_id_seq st ∉ map r_id rows ->
  exists row st',
    r_status row = Some "pending" /\
    asyncpg.fetchrow_outcome env st title description user_id
    = inr (selected_columns row, st').
Proof.
  intros Hs Hrows H1 H2 H3 Ht Hu Hseq Hkey.
  unfold asyncpg.fetchrow_outcome, insert_returning, new_row.
  rewrite Hs, Hrows, H1, H2, H3, Ht, Hu. cbn [orb r_id].
  destruct (Z.ltb_spec int4_max (tasks_id_seq st)); [lia|].
  rewrite bool_decide_eq_false_2 by done.
  eexists _, _. split; [|reflexivity]. reflexivity.
Qed.

Lemma create_task_succeeds env task lg w row st' :
  connect_error env = None ->
  asyncpg.fetchrow_outcome env (store w) (Task.title task)
    (Task.description task) (Task.user_id task)
  = inr (selected_columns row, st') ->
  r_status row = Some "pending" ->
  create_task env task lg w =
  (Return {| TaskResponse.id := r_id row;
             TaskResponse.title := r_title row;
             TaskResponse.description := r_description row;
             TaskResponse.status := "pending";
             TaskResponse.user_id := r_user_id row |},
   {| store := st';
      trace := trace w ++ [create_started task lg; Connected; Fetchrow;
                           Closed; create_succeeded task lg (r_id row)] |}).
Proof.
  intros H1 H2 Hs.
  unfold create_task, create_task_try, try_except, bind, log,
    asyncpg.connect, asyncpg.fetchrow.
  rewrite H1. simpl. unfold bind. simpl. rewrite H2.
  destruct row as [i t d s u c]; simpl in Hs; subst s.
  destruct d; simpl; by rewrite <- !app_assoc.
Qed.

(** The three ways a run of [create_task] can go. *)
Lemma create_task_cases env task lg w :
  (exists e evs,
     create_task env task lg w = (Raise (database_error e), extend w evs))
  \/ (exists rows row,
        tasks (store w) = Some rows /\
        new_row (current_timestamp env) (store w) (Task.title task)
          (Task.description task) (Task.user_id task) = Some row /\
        create_task env task lg w =
        (Return {| TaskResponse.id := r_id row;
                   TaskResponse.title := r_title row;
                   TaskResponse.description := r_description row;
                   TaskResponse.status := "pending";
                   TaskResponse.user_id := r_user_id row |},
         {| store := {| tasks := Some (rows ++ [row]);
                        tasks_id_seq := tasks_id_seq (store w) + 1 |};
            trace := trace w ++
              [create_started task lg; Connected; Fetchrow; Closed;
               create_succeeded task lg (r_id row)] |})).
Proof.
  destruct (connect_error env) as [msg|] eqn:Hc.
  { left. eexists _, _. by apply create_task_connect_fails. }
  destruct (asyncpg.fetchrow_outcome env (store w) (Task.title task)
              (Task.description task) (Task.user_id task))
    as [e|[rec st']] eqn:Hs.
  { left. eexists _, _. by apply create_task_statement_fails. }
  destruct (fetchrow_outcome_inr _ _ _ _ _ _ _ Hs)
    as (rows & row & Hse & Hrows & Hrow & -> & ->).
  right. exists rows, row. split; [done|]. split; [done|].
  apply create_task_succeeds; [done|done|].
  by apply (new_row_status _ _ _ _ _ _ Hrow).
Qed.

Lemma comprehension_shows rows : forall out w,
  Forall2 shows rows out ->
  comprehension task_response (map selected_columns rows) w = (Return out, w).
Proof.
  induction rows as [|r rows IH]; intros out w Hout.
  - by apply Forall2_nil_inv_l in Hout as ->.
  - apply Forall2_cons_inv_l in Hout as (t & out' & Ht & Hout' & ->).
    cbn [map comprehension]. unfold bind at 1.
    rewrite (task_response_shows _ _ _ Ht). unfold bind at 1.
    by rewrite (IH _ _ Hout').
Qed.

Lemma shows_exists rows :
  Forall (fun r => is_Some (r_status r)) rows ->
  exists out, Forall2 shows rows out.
Proof.
  induction 1 as [|r rows [s Hs] _ [out IH]].
  - exists []. constructor.
  - exists ({| TaskResponse.id := r_id r; TaskResponse.title := r_title r;
               TaskResponse.description := r_description r;
               TaskResponse.status := s;
               TaskResponse.user_id := r_user_id r |} :: out).
    constructor; [|done]. by repeat split.
Qed.

Lemma list_tasks_connect_fails env u lg w msg :
  connect_error env = Some msg ->
  list_tasks env u lg w =
  (Raise (database_error (PostgresError msg)),
   extend w [list_started u lg; list_failed u lg (PostgresError msg)]).
Proof.
  intros H. rewrite list_tasks_unfold.
  unfold list_tasks_try, bind, asyncpg.connect. rewrite H. simpl.
  by rewrite extend_extend.
Qed.

Lemma list_tasks_statement_fails env u lg w e :
  connect_error env = None ->
  asyncpg.fetch_outcome env (store w) u = inl e ->
  list_tasks env u lg w =
  (Raise (database_error e),
   extend w [list_started u lg; Connected; Fetch; list_failed u lg e]).
Proof.
  intros H1 H2. rewrite list_tasks_unfold.
  unfold list_tasks_try, bind, asyncpg.connect, asyncpg.fetch. rewrite H1.
  simpl. unfold bind. simpl. rewrite H2. simpl.
  unfold extend. simpl. by rewrite <- !app_assoc.
Qed.

Lemma list_tasks_succeeds env u lg w rows out :
  connect_error env = None ->
  statement_error env = None ->
  tasks (store w) = Some rows ->
  has_nul u = false ->
  Forall2 shows (select_rows u rows) out ->
  list_tasks env u lg w =
  (Return out,
   extend w [list_started u lg; Connected; Fetch; Closed;
             list_succeeded u lg (length out)]).
Proof.
  intros H1 H2 H3 Hnul Hout.
  rewrite list_tasks_unfold.
  unfold list_tasks_try, bind, asyncpg.connect, asyncpg.fetch,
    asyncpg.fetch_outcome, select_by_user. rewrite H1.
  simpl. unfold bind. simpl. rewrite H2, H3, Hnul. simpl.
  fold (select_rows u rows).
  rewrite (comprehension_shows _ _ _ Hout), length_map.
  rewrite (Forall2_length _ _ _ Hout).
  unfold extend. simpl. by rewrite <- !app_assoc.
Qed.

(** ** The application around the handlers *)

Lemma request_middleware_returns env req call_next w resp w' :
  call_next (set_state_logger (request_logger env req) req) w
  = (Return resp, w') ->
  request_middleware env req call_next w =
  (Return (with_header "X-Request-ID" (request_id env) resp),
   extend w' [completed env req resp]).
Proof.
  intros H. unfold request_middleware, try_except.
  fold (request_id env). fold (request_logger env req).
  unfold bind. rewrite H. reflexivity.
Qed.

(** A failure of [call_next] is logged and raised again, unchanged: the
    middleware builds no response of its own. *)
Lemma request_middleware_reraises env req call_next w e w' :
  call_next (set_state_logger (request_logger env req) req) w
  = (Raise e, w') ->
  request_middleware env req call_next w =
  (Raise e, extend w' [request_failed env req e]).
Proof.
  intros H. unfold request_middleware, try_except.
  fold (request_id env). fold (request_logger env req).
  unfold bind. rewrite H. reflexivity.
Qed.

Lemma app_unfold env fw req w resp w' :
  routes env fw req w = (Return resp, w') ->
  app env fw req w =
  (Return (with_header "X-Request-ID" (request_id env) resp),
   extend w' [completed env req resp]).
Proof.
  intros H. unfold app, server_error_middleware, try_except.
  by rewrite (request_middleware_returns _ _ _ _ _ _ H).
Qed.

Lemma handled_create env task lg w :
  exists resp w',
    exception_handlers
      (let* r := create_task env task lg in
       ret (JSONResponse 200 (OneTask r))) w
    = (Return resp, w').
Proof.
  unfold exception_handlers, try_except, bind. rewrite create_task_unfold.
  destruct (create_task_try _ _ _ _) as [[a|e] w']; simpl; eauto.
Qed.

Lemma handled_list env u lg w :
  exists resp w',
    exception_handlers
      (let* r := list_tasks env u lg in
       ret (JSONResponse 200 (Tasks r))) w
    = (Return resp, w').
Proof.
  unfold exception_handlers, try_except, bind. rewrite list_tasks_unfold.
  destruct (list_tasks_try _ _ _ _) as [[a|e] w']; simpl; eauto.
Qed.

Lemma app_reraises env fw req w e w' :
  routes env fw req w = (Raise e, w') ->
  app env fw req w =
  (Return internal_server_error, extend w' [request_failed env req e]).
Proof.
  intros H. unfold app, server_error_middleware, try_except.
  by rewrite (request_middleware_reraises _ _ _ _ _ _ H).
Qed.

(** A create-task request that fails validation does not reach the
    handler: the routes answer 422, or raise what rendering the 422
    raises. *)
Lemma routes_rejects_body env fw req w :
  method req = "POST" -> path req = "/tasks" ->
  Task.validate (body req) = None ->
  routes env fw req w =
  match render_failure (Task.error_inputs (body req)) with
  | None => (Return (JSONResponse 422 (ValidationErrors "body")), w)
  | Some e => (Raise e, w)
  end.
Proof.
  intros Hm Hp Hv. unfold routes, router.
  cbn [method path body set_state_logger].
  rewrite Hm, Hp, Hv. cbn [String.eqb Ascii.eqb Bool.eqb andb].
  unfold exception_handlers, try_except, raise.
  by destruct (render_failure _).
Qed.

Lemma unrenderable_true req :
  unrenderable req = true ->
  method req = "POST" /\ path req = "/tasks" /\
  Task.validate (body req) = None /\
  exists e, render_failure (Task.error_inputs (body req)) = Some e.
Proof.
  unfold unrenderable.
  destruct (String.eqb_spec (method req) "POST") as [Hm|]; [|done].
  destruct (String.eqb_spec (path req) "/tasks") as [Hp|]; [|done].
  destruct (Task.validate (body req)); [done|].
  destruct (render_failure _) as [err|]; [|done]. eauto.
Qed.

(** Nothing else escapes the routes: a request whose 422 can be rendered,
    or that needs none, gets a response from them. *)
Lemma routes_total env fw req w :
  unrenderable req = false ->
  exists resp w', routes env fw req w = (Return resp, w').
Proof.
  intros Hr. unfold routes, router.
  destruct (_ && _).
  { unfold exception_handlers, try_except, bind, health_check, bind, log.
    simpl. eauto. }
  cbn [method path body set_state_logger].
  destruct (String.eqb (method req) "POST" && String.eqb (path req) "/tasks")
    eqn:Hpost.
  { destruct (Task.validate (body req)) as [task|] eqn:Hv.
    - apply handled_create.
    - unfold unrenderable in Hr. rewrite Hpost, Hv in Hr.
      unfold exception_handlers, try_except, raise.
      destruct (render_failure _); [done|]. eauto. }
  destruct (String.eqb (method req) "GET" && String.eqb (path req) "/tasks").
  { cbn [query_params set_state_logger].
    destruct (last_value "user_id" (query_params req)) as [u|].
    - apply handled_list.
    - unfold exception_handlers, try_except, raise. simpl. eauto. }
  unfold exception_handlers, try_except, ret. eauto.
Qed.

Lemma routes_list env fw req w u :
  method req = "GET" -> path req = "/tasks" ->
  last_value "user_id" (query_params req) = Some u ->
  routes env fw req w =
  exception_handlers
    (let* r := list_tasks env u (request_logger env req) in
     ret (JSONResponse 200 (Tasks r))) w.
Proof.
  intros Hm Hp Hq. unfold routes, router.
  cbn [method path query_params set_state_logger state_logger
       get_request_logger_dependency].
  rewrite Hm, Hp, Hq. reflexivity.
Qed.

(** ** Request identifiers and headers *)

Lemma length_string_of_list_ascii l :
  String.length (string_of_list_ascii l) = length l.
Proof. induction l; simpl; congruence. Qed.

Lemma length_hex32 x : length (uuid.hex32 x) = 32%nat.
Proof. unfold uuid.hex32. by rewrite length_map, length_rev, length_seq. Qed.

Lemma length_uuid_to_str x : String.length (uuid.to_str x) = 36%nat.
Proof.
  unfold uuid.to_str. rewrite length_string_of_list_ascii.
  repeat (rewrite ?length_app, ?length_cons, ?length_take, ?length_drop,
          ?length_hex32).
  reflexivity.
Qed.

Lemma header_set_header key value raw :
  header key (set_header key value raw) = Some value.
Proof.
  induction raw as [|[k v] raw IH]; simpl.
  - by rewrite String.eqb_refl.
  - destruct (String.eqb k (lower key)) eqn:E; simpl.
    + by rewrite String.eqb_refl.
    + by rewrite E.
Qed.

Lemma contains_header key raw :
  contains (lower key) raw = bool_decide (is_Some (header key raw)).
Proof.
  induction raw as [|[k v] raw IH]; simpl; [done|].
  destruct (String.eqb k (lower key)); simpl; [|done].
  first [reflexivity | symmetry; apply bool_decide_eq_true_2; eauto].
Qed.

Lemma contains_last_value key (items : list (string * string)) :
  contains key items = bool_decide (is_Some (last_value key items)).
Proof.
  induction items as [|[k v] items IH]; simpl; [done|].
  rewrite IH. destruct (last_value key items) as [v'|]; simpl.
  - rewrite orb_true_r. first [reflexivity | symmetry; apply bool_decide_eq_true_2; eauto].
  - rewrite orb_false_r. destruct (String.eqb k key); simpl; [|done].
    first [reflexivity | symmetry; apply bool_decide_eq_true_2; eauto].
Qed.

Lemma extract_user_id_spec req :
  extract_user_id req =
  match header "X-User-ID" (headers req) with
  | Some u => Some u
  | None => last_value "user_id" (query_params req)
  end.
Proof.
  unfold extract_user_id. rewrite contains_header, contains_last_value.
  destruct (header "X-User-ID" (headers req)) as [u|]; [done|].
  destruct (last_value "user_id" (query_params req)); done.
Qed.

(** ** What touches the store *)

Lemma keeps_store_ret {A} (a : A) : keeps_store (ret a).
Proof. done. Qed.

Lemma keeps_store_raise {A} e : keeps_store (@raise A e).
Proof. done. Qed.

Lemma keeps_store_of_result {A} (r : result A) : keeps_store (of_result r).
Proof. done. Qed.

Lemma keeps_store_emit ev : keeps_store (emit ev).
Proof. done. Qed.

Lemma keeps_store_log lvl via msg extra exc :
  keeps_store (log lvl via msg extra exc).
Proof. done. Qed.

Lemma keeps_store_bind {A B} (m : M A) (k : A -> M B) :
  keeps_store m -> (forall a, keeps_store (k a)) -> keeps_store (bind m k).
Proof.
  intros Hm Hk w. unfold bind. specialize (Hm w).
  destruct (m w) as [[a|e] w1]; simpl in *; [|done].
  by rewrite Hk.
Qed.

Lemma keeps_store_try_except {A} (m : M A) (h : exn -> M A) :
  keeps_store m -> (forall e, keeps_store (h e)) ->
  keeps_store (try_except m h).
Proof.
  intros Hm Hh w. unfold try_except. specialize (Hm w).
  destruct (m w) as [[a|e] w1]; simpl in *; [done|].
  by rewrite Hh.
Qed.

Lemma keeps_store_connect env : keeps_store (asyncpg.connect env).
Proof. unfold asyncpg.connect. by destruct (connect_error env). Qed.

Lemma keeps_store_fetch env u : keeps_store (asyncpg.fetch env u).
Proof.
  intros w. unfold asyncpg.fetch, bind. simpl.
  by destruct (asyncpg.fetch_outcome _ _ _).
Qed.

Lemma keeps_store_getitem r k : keeps_store (asyncpg.getitem r k).
Proof. unfold asyncpg.getitem. by destruct (column k r). Qed.

Create HintDb store_frame.
#[local] Hint Resolve keeps_store_ret keeps_store_raise keeps_store_of_result
  keeps_store_emit keeps_store_log keeps_store_connect keeps_store_fetch
  keeps_store_getitem : store_frame.
#[local] Hint Extern 2 (keeps_store (bind _ _)) =>
  apply keeps_store_bind; [|intros ?] : store_frame.
#[local] Hint Extern 2 (keeps_store (try_except _ _)) =>
  apply keeps_store_try_except; [|intros ?] : store_frame.

Lemma keeps_store_task_response row : keeps_store (task_response row).
Proof. unfold task_response. auto 20 with store_frame. Qed.

Lemma keeps_store_comprehension {A B} (f : A -> M B) rows :
  (forall a, keeps_store (f a)) -> keeps_store (comprehension f rows).
Proof.
  intros Hf. induction rows as [|r rows IH]; simpl; auto 10 with store_frame.
Qed.

(** Listing and the health check never write. *)
Lemma keeps_store_list_tasks env u lg : keeps_store (list_tasks env u lg).
Proof.
  unfold list_tasks, list_tasks_try, asyncpg.close.
  auto 30 using keeps_store_comprehension, keeps_store_task_response
    with store_frame.
Qed.

Lemma keeps_store_health_check lg : keeps_store (health_check lg).
Proof. unfold health_check. auto with store_frame. Qed.

Lemma preserves_of_keeps {A} (m : M A) : keeps_store m -> preserves_status m.
Proof. intros H w. by rewrite H. Qed.

Lemma preserves_bind {A B} (m : M A) (k : A -> M B) :
  preserves_status m -> (forall a, preserves_status (k a)) ->
  preserves_status (bind m k).
Proof.
  intros Hm Hk w Hw. unfold bind. specialize (Hm w Hw).
  destruct (m w) as [[a|e] w1]; simpl in *; [|done].
  by apply Hk.
Qed.

Lemma preserves_try_except {A} (m : M A) (h : exn -> M A) :
  preserves_status m -> (forall e, preserves_status (h e)) ->
  preserves_status (try_except m h).
Proof.
  intros Hm Hh w Hw. unfold try_except. specialize (Hm w Hw).
  destruct (m w) as [[a|e] w1]; simpl in *; [done|].
  by apply Hh.
Qed.

Lemma preserves_fetchrow env title description user_id :
  preserves_status (asyncpg.fetchrow env title description user_id).
Proof.
  intros w Hw. unfold asyncpg.fetchrow, bind. simpl.
  destruct (asyncpg.fetchrow_outcome _ _ _ _ _) as [e|[rec st']] eqn:Hout;
    simpl; [done|].
  apply fetchrow_outcome_inr in Hout
    as (rows & row & _ & Hrows & Hrow & _ & ->).
  intros rows' [= <-].
  apply Forall_app. split; [by apply Hw|].
  apply Forall_singleton. rewrite (new_row_status _ _ _ _ _ _ Hrow). eauto.
Qed.

Lemma preserves_execute env : preserves_status (asyncpg.execute env).
Proof.
  intros w Hw. unfold asyncpg.execute, bind, asyncpg.execute_outcome. simpl.
  destruct (statement_error env); simpl; [done|].
  unfold create_schema. destruct (tasks (store w)) eqn:Hrows; [done|].
  by intros rows [= <-].
Qed.

#[local] Hint Resolve preserves_fetchrow preserves_execute : store_frame.
#[local] Hint Extern 2 (preserves_status (bind _ _)) =>
  apply preserves_bind; [|intros ?] : store_frame.
#[local] Hint Extern 2 (preserves_status (try_except _ _)) =>
  apply preserves_try_except; [|intros ?] : store_frame.
#[local] Hint Extern 5 (preserves_status _) =>
  apply preserves_of_keeps : store_frame.

Lemma preserves_create_task env task lg :
  preserves_status (create_task env task lg).
Proof.
  unfold create_task, create_task_try, asyncpg.close.
  auto 40 using keeps_store_task_response with store_frame.
Qed.

Lemma preserves_lifespan_startup env : preserves_status (lifespan_startup env).
Proof.
  unfold lifespan_startup, asyncpg.close. auto 40 with store_frame.
Qed.

Lemma preserves_router env fw req : preserves_status (router env fw req).
Proof.
  unfold router.
  repeat match goal with
         | |- context [if ?b then _ else _] => destruct b
         end;
    repeat match goal with
           | |- context [match ?o with Some _ => _ | None => _ end] =>
               destruct o
           end;
    auto 20 using preserves_create_task, keeps_store_list_tasks,
      keeps_store_health_check with store_frame.
Qed.

Lemma preserves_app env fw req : preserves_status (app env fw req).
Proof.
  unfold app, server_error_middleware, request_middleware, exception_handlers.
  apply preserves_try_except; [|auto with store_frame].
  apply preserves_try_except; [|auto 10 with store_frame].
  apply preserves_bind; [|auto 10 with store_frame].
  apply preserves_try_except; [apply preserves_router|].
  intros []; try destruct (render_failure _); auto with store_frame.
Qed.

(** Every row the service has stored has a status: the hypothesis of the
    listing theorem holds in every world the service reaches from a
    database in which it holds, an empty one in particular. *)
Lemma reachable_status_set w0 w :
  status_set (store w0) -> reachable w0 w -> status_set (store w).
Proof.
  intros H0 Hr. induction Hr as [|env w _ IH|env fw req w _ IH]; [done| |].
  - by apply preserves_lifespan_startup.
  - by apply preserves_app.
Qed.

Lemma service_rows_have_status w rows user_id :
  reachable blank w -> tasks (store w) = Some rows ->
  Forall (fun r => is_Some (r_status r)) (matching user_id rows).
Proof.
  intros Hr Hrows.
  assert (H : status_set (store w)).
  { apply (reachable_status_set blank); [|done]. by intros rows'. }
  apply Forall_forall. intros r [_ Hin]%list_elem_of_filter.
  by apply (proj1 (Forall_forall _ _) (H rows Hrows)).
Qed.

(** ** Creating a task *)

Lemma varchar_fits n s : (char_length s <= n)%nat -> varchar n s = Some s.
Proof.
  intros H. unfold varchar.
  destruct (Nat.leb_spec (char_length s) n); [done | lia].
Qed.

Lemma char_length_clip s : forall n,
  (n < char_length s)%nat -> char_length (clip n s) = n.
Proof.
  induction s as [|c s IH]; intros n H; simpl in *; [lia|].
  destruct (continuation c) eqn:E.
  - simpl. rewrite E. by apply IH.
  - destruct n as [|n]; [done|]. simpl. rewrite E. f_equal. apply IH. lia.
Qed.

Lemma varchar_stored s t : varchar 255 s = Some t -> stored_as s t.
Proof.
  unfold varchar, stored_as.
  destruct (Nat.leb_spec (char_length s) 255) as [Hle|Hgt].
  - intros [= <-]. by left.
  - destruct (all_spaces (excess 255 s)) eqn:Hsp; [|done].
    intros [= <-]. right. repeat split; try done.
    by apply char_length_clip.
Qed.

Lemma new_row_columns now st title description user_id row :
  new_row now st title description user_id = Some row ->
  varchar 255 title = Some (r_title row) /\
  varchar 255 user_id = Some (r_user_id row) /\
  r_description row = description.
Proof.
  unfold new_row.
  destruct (varchar 255 title), (varchar 255 user_id); try discriminate.
  by intros [= <-].
Qed.

(** A run that returns has gone down the path without error. *)
Lemma create_task_returns_inv env task lg w r w' :
  create_task env task lg w = (Return r, w') ->
  connect_error env = None /\
  exists rec st',
    asyncpg.fetchrow_outcome env (store w) (Task.title task)
      (Task.description task) (Task.user_id task) = inr (rec, st').
Proof.
  destruct (connect_error env) as [msg|] eqn:Hc.
  { by rewrite (create_task_connect_fails _ _ _ _ _ Hc). }
  destruct (asyncpg.fetchrow_outcome env (store w) (Task.title task)
              (Task.description task) (Task.user_id task))
    as [e|[rec st']] eqn:Hs.
  { by rewrite (create_task_statement_fails _ _ _ _ _ Hc Hs). }
  eauto.
Qed.


Lemma stocked_insertable task :
  has_nul (Task.title task) = false ->
  from_option has_nul false (Task.description task) = false ->
  has_nul (Task.user_id task) = false ->
  is_Some (varchar 255 (Task.title task)) ->
  is_Some (varchar 255 (Task.user_id task)) ->
  insertable (store stocked) task.
Proof.
  intros H1 H2 H3 Ht Hu. eexists. split; [vm_compute; reflexivity|].
  repeat split; try done.
  apply (bool_decide_unpack _). vm_compute. exact I.
Qed.



(** A title of 256 letters is refused by the store, and the handler answers
    with its 500. *)
Example overlong_title_is_refused :
  fst (create_task quiet overlong_task ModuleLogger ready) =
  Raise (HTTPException 500
           "Database error: value too long for type character varying(255)").
Proof. by vm_compute. Qed.

(** The width of the column counts characters: a title of 255 characters
    that takes 455 bytes is stored and returned as it is. *)
Example accented_title_fits :
  String.length accented = 455%nat /\
  char_length accented = 255%nat /\
  exists r w',
    create_task quiet
      {| Task.title := accented; Task.description := None;
         Task.user_id := "u1" |} ModuleLogger ready = (Return r, w') /\
    TaskResponse.title r = accented.
Proof.
  split; [by vm_compute|]. split; [by vm_compute|].
  eexists _, _. split; [vm_compute; reflexivity|]. by vm_compute.
Qed.

(** No text of the store holds U+0000, and the sequence of ids ends at
    2147483647: in both cases the insert is refused and the handler
    answers with its 500. *)
Example nul_in_a_text_is_refused :
  exists detail,
    fst (create_task quiet
           {| Task.title := "Buy milk"; Task.description := None;
              Task.user_id := with_nul |} ModuleLogger ready)
    = Raise (HTTPException 500 detail) /\
    detail = "Database error: " +:+ str character_not_in_repertoire.
Proof. eexists. split; [vm_compute; reflexivity | by vm_compute]. Qed.

Example exhausted_sequence_is_refused :
  exists detail,
    fst (create_task quiet buy_milk ModuleLogger exhausted)
    = Raise (HTTPException 500 detail) /\
    detail = "Database error: " +:+ str sequence_exhausted.
Proof. eexists. split; [vm_compute; reflexivity | by vm_compute]. Qed.

(** C4, amended: when the insert statement of [create_task] succeeds, one
    row is appended to the table, with the next value of the sequence as
    id, the default status "pending" and the store's clock as created_at,
    and the record returned holds the id, title, description, status and
    user_id of that row; created_at is not among the returned columns. *)
Theorem insert_returns_selected_columns
    env st title description user_id rec st' :
  asyncpg.fetchrow_outcome env st title description user_id = inr (rec, st') ->
  exists rows row,
    tasks st = Some rows /\
    tasks st' = Some (rows ++ [row]) /\
    r_id row = tasks_id_seq st /\
    r_status row = Some "pending" /\
    r_created_at row = current_timestamp env /\
    rec = [ ("id", SqlInt (r_id row)); ("title", SqlText (r_title row));
            ("description", nullable (r_description row));
            ("status", SqlText "pending");
            ("user_id", SqlText (r_user_id row)) ] /\
    column "created_at" rec = None.
Proof.
  intros (rows & row & _ & Hrows & Hrow & -> & ->)%fetchrow_outcome_inr.
  exists rows, row. rewrite Hrows.
  unfold new_row in Hrow.
  destruct (varchar 255 title), (varchar 255 user_id); try discriminate.
  inversion Hrow; subst. done.
Qed.

(** The theorem at work on the first insert into an empty table. *)
Lemma insert_returns_selected_columns_witness :
  exists rec st',
    asyncpg.fetchrow_outcome quiet (store ready) "Buy milk" None "u1"
    = inr (rec, st') /\
    exists rows row,
      tasks (store ready) = Some rows /\
      tasks st' = Some (rows ++ [row]) /\
      r_id row = tasks_id_seq (store ready) /\
      r_status row = Some "pending" /\
      r_created_at row = current_timestamp quiet /\
      rec = [ ("id", SqlInt (r_id row)); ("title", SqlText (r_title row));
              ("description", nullable (r_description row));
              ("status", SqlText "pending");
              ("user_id", SqlText (r_user_id row)) ] /\
      column "created_at" rec = None.
Proof.
  eexists _, _. split; [vm_compute; reflexivity|].
  apply (insert_returns_selected_columns quiet (store ready)
           "Buy milk" None "u1").
  vm_compute; reflexivity.
Defined.

(** C4 as stated fails: the row stored by the insert has a created_at, the
    record the insert returns has no such column. *)
Lemma returned_record_lacks_created_at :
  exists rec st' row,
    asyncpg.fetchrow_outcome quiet (store ready) "Buy milk" None "u1"
    = inr (rec, st') /\
    tasks st' = Some [row] /\
    r_created_at row = 1700000000 /\
    column "created_at" rec = None.
Proof. eexists _, _, _. split; [vm_compute; reflexivity|]. by vm_compute. Qed.

(** ** Validation before the handler *)

Lemma validate_missing members :
  last_value "title" members = None \/ last_value "user_id" members = None ->
  Task.validate (Some (JObject members)) = None.
Proof.
  unfold Task.validate. intros [-> | ->]; [done|].
  by destruct (last_value "title" members) as [[]|].
Qed.



(** The other answer: a body without user_id that holds an infinite
    number is answered with the bare 500, and the handler has not run. *)
Example unrenderable_rejection_is_a_bare_500 :
  exists resp w' msg,
    app quiet not_found infinite_extra stocked = (Return resp, w') /\
    resp = internal_server_error /\
    store w' = store stocked /\
    trace w' = trace stocked ++
      [request_failed quiet infinite_extra (ValueError msg)].
Proof. eexists _, _, _. split; [vm_compute; reflexivity|]. by vm_compute. Qed.

(** Of two members of the same name the last one counts: a NaN that a
    later member replaces is not echoed, and the answer is the 422. *)
Example replaced_member_is_not_echoed :
  exists resp w',
    app quiet not_found
      (post_tasks [("priority", JFloat NaN); ("title", JString "Buy milk");
                   ("priority", JNumber 1)])
      stocked = (Return resp, w') /\
    status_code resp = 422.
Proof. eexists _, _. split; [vm_compute; reflexivity|]. by vm_compute. Qed.


(** ** The request identifier *)

Lemma request_id_nonempty env : request_id env <> EmptyString.
Proof.
  intros E. pose proof (length_uuid_to_str (uuid.uuid4 (urandom env))) as L.
  unfold request_id in E. rewrite E in L. discriminate.
Qed.




(** So is one whose title holds a lone surrogate: the text of the 422
    cannot be encoded. *)
Example surrogate_rejection_lacks_request_id :
  exists resp w' msg,
    app quiet not_found
      (post_tasks [("title", JSurrogate); ("user_id", JString "u1")])
      ready = (Return resp, w') /\
    resp = internal_server_error /\
    header "X-Request-ID" (response_headers resp) = None /\
    last (trace w')
    = Some (request_failed quiet
              (post_tasks [("title", JSurrogate); ("user_id", JString "u1")])
              (UnicodeEncodeError msg)).
Proof. eexists _, _, _. split; [vm_compute; reflexivity|]. by vm_compute. Qed.

(** A title that is a finite number is rejected too, with a 422 that can
    be rendered and carries the header. *)
Example rendered_rejection_carries_request_id :
  exists resp w',
    app quiet not_found
      (post_tasks [("title", JFloat (Finite 1.5)); ("user_id", JString "u1")])
      ready = (Return resp, w') /\
    status_code resp = 422 /\
    header "X-Request-ID" (response_headers resp)
    = Some "1f2e3d4c-5b6a-4988-8123-456789abcdef".
Proof. eexists _, _. split; [vm_compute; reflexivity|]. by vm_compute. Qed.

(** The failure answers carry it too: a create-task request while the
    store cannot be reached. *)
Example failed_request_carries_request_id :
  exists resp w',
    app unreachable not_found
      (post_tasks [("title", JString "Buy milk"); ("user_id", JString "u1")])
      ready = (Return resp, w') /\
    status_code resp = 500 /\
    response_content resp = Detail "Database error: connection refused" /\
    header "X-Request-ID" (response_headers resp)
    = Some "1f2e3d4c-5b6a-4988-8123-456789abcdef".
Proof. eexists _, _. split; [vm_compute; reflexivity|]. by vm_compute. Qed.

(** ** The user identifier of the logging context *)

(** C8, amended: the user identifier of the logging context is the value of
    the X-User-ID header when that header is present, otherwise the value
    of the user_id query parameter when that is present, and it is attached
    only when that value is not empty; in every other case, an empty header
    next to a query parameter included, no identifier is attached.  The
    context is a total function of the request: no error results. *)
Theorem context_user_id rid req :
  get "user_id" (extra_context rid req) =
  match header "X-User-ID" (headers req) with
  | Some u => if nonempty u then Some (VStr u) else None
  | None =>
      match last_value "user_id" (query_params req) with
      | Some u => if nonempty u then Some (VStr u) else None
      | None => None
      end
  end.
Proof.
  unfold extra_context. rewrite extract_user_id_spec.
  destruct (header "X-User-ID" (headers req)) as [[|c u]|]; try reflexivity.
  destruct (last_value "user_id" (query_params req)) as [[|c u]|];
    reflexivity.
Qed.

(** C8 as stated fails: the header is present, its value is empty, and the
    context gets no user identifier at all, although the query parameter
    has one. *)
Lemma empty_header_attaches_nothing :
  header "X-User-ID" (headers empty_header) = Some EmptyString /\
  last_value "user_id" (query_params empty_header) = Some "u1" /\
  get "user_id" (extra_context (request_id quiet) empty_header) = None.
Proof. by vm_compute. Qed.

(** ** Listing tasks *)

#[local] Instance id_desc_total : Total id_desc.
Proof. intros a b. unfold id_desc. lia. Qed.

#[local] Instance id_desc_trans : Transitive id_desc.
Proof. intros a b c. unfold id_desc. lia. Qed.




(** On that table the list for u1 is row 3, then row 1; the list for a user
    without tasks is empty, with status 200. *)
Example list_tasks_newest_first :
  fst (list_tasks quiet "u1" ModuleLogger busy) =
  Return [ {| TaskResponse.id := 3; TaskResponse.title := "Call Ann";
              TaskResponse.description := None;
              TaskResponse.status := "pending";
              TaskResponse.user_id := "u1" |};
           {| TaskResponse.id := 1; TaskResponse.title := "Buy milk";
              TaskResponse.description := None;
              TaskResponse.status := "pending";
              TaskResponse.user_id := "u1" |} ].
Proof. by vm_compute. Qed.

Example list_tasks_of_nobody :
  exists resp w',
    app quiet not_found (get_tasks "u9") busy = (Return resp, w') /\
    status_code resp = 200 /\
    response_content resp = Tasks [].
Proof. eexists _, _. split; [vm_compute; reflexivity|]. by vm_compute. Qed.

(** A row without status, which the service never writes, cannot be shown:
    the listing of its user ends in the handler's 500. *)
Example row_without_status_fails_listing :
  fst (list_tasks quiet "u1" ModuleLogger foreign) =
  Raise (HTTPException 500
           "Database error: validation error for TaskResponse").
Proof. by vm_compute. Qed.

(** ** Persistence failures *)

Lemma create_task_raises_only_500 env task lg w e w' :
  create_task env task lg w = (Raise e, w') ->
  exists cause, e = HTTPException 500 ("Database error: " +:+ str cause).
Proof.
  rewrite create_task_unfold.
  destruct (create_task_try _ _ _ _) as [[a|e0] w0]; intros H; inversion H.
  by exists e0.
Qed.

Lemma list_tasks_raises_only_500 env u lg w e w' :
  list_tasks env u lg w = (Raise e, w') ->
  exists cause, e = HTTPException 500 ("Database error: " +:+ str cause).
Proof.
  rewrite list_tasks_unfold.
  destruct (list_tasks_try _ _ _ _) as [[a|e0] w0]; intros H; inversion H.
  by exists e0.
Qed.

(** C6: every persistence failure met by [create_task] or [list_tasks],
    whether the connection or the statement fails, is logged and turned
    into an HTTPException with status 500 whose detail is "Database
    error: " followed by the text of the failure; whatever either handler
    raises is such a 500, so that no persistence error leaves a handler as
    it is; and the application answers a 500 exception with a response of
    status 500 carrying that detail. *)
Theorem persistence_failure_becomes_500 env lg w :
  (forall task e,
     create_failure env (store w) task = Some e ->
     exists evs,
       create_task env task lg w =
       (Raise (HTTPException 500 ("Database error: " +:+ str e)),
        extend w evs)
       /\ create_failed task lg e ∈ evs)
  /\ (forall user_id e,
        list_failure env (store w) user_id = Some e ->
        exists evs,
          list_tasks env user_id lg w =
          (Raise (HTTPException 500 ("Database error: " +:+ str e)),
           extend w evs)
          /\ list_failed user_id lg e ∈ evs)
  /\ (forall task e w',
        create_task env task lg w = (Raise e, w') ->
        exists cause,
          e = HTTPException 500 ("Database error: " +:+ str cause))
  /\ (forall user_id e w',
        list_tasks env user_id lg w = (Raise e, w') ->
        exists cause,
          e = HTTPException 500 ("Database error: " +:+ str cause))
  /\ (forall detail,
        exception_handlers (raise (HTTPException 500 detail)) w =
        (Return (JSONResponse 500 (Detail detail)), w)).
Proof.
  split; [|split; [|split; [|split]]].
  - intros task e. unfold create_failure.
    destruct (connect_error env) as [msg|] eqn:Hc.
    + intros [= <-]. eexists.
      split; [by apply create_task_connect_fails | in_trace].
    + destruct (asyncpg.fetchrow_outcome _ _ _ _ _) as [e'|] eqn:Hs; [|done].
      intros [= <-]. eexists.
      split; [by apply create_task_statement_fails | in_trace].
  - intros u e. unfold list_failure.
    destruct (connect_error env) as [msg|] eqn:Hc.
    + intros [= <-]. eexists.
      split; [by apply list_tasks_connect_fails | in_trace].
    + destruct (asyncpg.fetch_outcome _ _ _) as [e'|] eqn:Hs; [|done].
      intros [= <-]. eexists.
      split; [by apply list_tasks_statement_fails | in_trace].
  - intros task e w'. apply create_task_raises_only_500.
  - intros u e w'. apply list_tasks_raises_only_500.
  - reflexivity.
Qed.

(** The theorem at work while the store cannot be reached. *)
Lemma persistence_failure_becomes_500_witness :
  create_failure unreachable (store ready) buy_milk
  = Some (PostgresError "connection refused") /\
  exists evs,
    create_task unreachable buy_milk ModuleLogger ready =
    (Raise (HTTPException 500 "Database error: connection refused"),
     extend ready evs)
    /\ create_failed buy_milk ModuleLogger
         (PostgresError "connection refused") ∈ evs.
Proof.
  split; [reflexivity|].
  exact (proj1 (persistence_failure_becomes_500 unreachable ModuleLogger ready)
           buy_milk (PostgresError "connection refused") eq_refl).
Defined.

(** C10: when the connection is opened and the statement then raises, the
    events of [create_task], and likewise of [list_tasks], up to the 500
    they raise include the connection and no call of [close]. *)
Theorem statement_error_skips_close env lg w e :
  connect_error env = None ->
  (forall task,
     asyncpg.fetchrow_outcome env (store w) (Task.title task)
       (Task.description task) (Task.user_id task) = inl e ->
     exists evs,
       create_task env task lg w = (Raise (database_error e), extend w evs)
       /\ Connected ∈ evs /\ Closed ∉ evs)
  /\ (forall user_id,
        asyncpg.fetch_outcome env (store w) user_id = inl e ->
        exists evs,
          list_tasks env user_id lg w
          = (Raise (database_error e), extend w evs)
          /\ Connected ∈ evs /\ Closed ∉ evs).
Proof.
  intros Hc. split.
  - intros task Hs. eexists. split; [by apply create_task_statement_fails|].
    split; [in_trace | not_in_trace].
  - intros u Hs. eexists. split; [by apply list_tasks_statement_fails|].
    split; [in_trace | not_in_trace].
Qed.

(** The theorem at work on a listing whose connection is lost. *)
Lemma statement_error_skips_close_witness :
  connect_error interrupted = None /\
  exists evs,
    list_tasks interrupted "u1" ModuleLogger ready
    = (Raise (database_error
                (PostgresError
                   "connection was closed in the middle of operation")),
       extend ready evs)
    /\ Connected ∈ evs /\ Closed ∉ evs.
Proof.
  split; [reflexivity|].
  apply (statement_error_skips_close interrupted ModuleLogger ready
           (PostgresError "connection was closed in the middle of operation")
           eq_refl).
  reflexivity.
Defined.

(** On the path without error the connection is closed before the handler
    returns. *)
Example success_closes_connection :
  trace (snd (list_tasks quiet "u9" ModuleLogger busy)) =
  [ list_started "u9" ModuleLogger; Connected; Fetch; Closed;
    list_succeeded "u9" ModuleLogger 0 ].
Proof. by vm_compute. Qed.

(** ** Start-up *)

(** C7: whenever the schema step of the start-up hook fails, be it the
    connection or the statement, the hook returns normally, an error
    record with the text of the failure is the last thing it logs, and the
    store is left as it was. *)
Theorem bootstrap_failure_is_logged_not_fatal env w e :
  bootstrap_failure env (store w) = Some e ->
  exists evs,
    lifespan_startup env w =
    (Return tt, extend w (evs ++ [bootstrap_failed env e])).
Proof.
  unfold bootstrap_failure. intros H.
  unfold lifespan_startup, try_except, bind, asyncpg.connect.
  destruct (connect_error env) as [msg|] eqn:Hc.
  - inversion H; subst. by exists [].
  - destruct (asyncpg.execute_outcome env (store w)) as [e'|] eqn:Hs;
      [|discriminate].
    inversion H; subst. exists [Connected; Execute].
    simpl. unfold asyncpg.execute, bind. simpl.
    rewrite Hs. unfold log, emit, extend. simpl. by rewrite <- !app_assoc.
Qed.

(** The theorem at work while the store cannot be reached. *)
Lemma bootstrap_failure_is_logged_not_fatal_witness :
  bootstrap_failure unreachable (store blank)
  = Some (PostgresError "connection refused") /\
  exists evs,
    lifespan_startup unreachable blank =
    (Return tt,
     extend blank
       (evs ++ [bootstrap_failed unreachable
                  (PostgresError "connection refused")])).
Proof.
  split; [reflexivity|].
  exact (bootstrap_failure_is_logged_not_fatal unreachable blank
           (PostgresError "connection refused") eq_refl).
Defined.

(** The hook returns in every case. *)
Lemma lifespan_startup_returns env w :
  exists w', lifespan_startup env w = (Return tt, w').
Proof.
  unfold lifespan_startup, try_except, bind, asyncpg.connect.
  destruct (connect_error env); simpl; eauto.
  unfold asyncpg.execute, bind. simpl.
  destruct (asyncpg.execute_outcome _ _); simpl; eauto.
Qed.

(** After a failed start-up the table is missing, and a request is answered
    with a 500. *)
Example unmigrated_store_answers_500 :
  exists resp w',
    app quiet not_found (get_tasks "u1")
      (snd (lifespan_startup unreachable blank)) = (Return resp, w') /\
    status_code resp = 500 /\
    response_content resp
    = Detail ("Database error: relation " +:+ quoted "tasks"
              +:+ " does not exist").
Proof. eexists _, _. split; [vm_compute; reflexivity|]. by vm_compute. Qed.

(** ** The formatter *)

Section add_fields_facts.

Import logger.

Variable super_add_fields :
  gmap string value -> LogRecord -> gmap string value -> gmap string value.
Variable class_dict : list string.
Variable now : string.

Lemma add_attribute_other lr k v key :
  k <> key -> add_attribute class_dict lr (k, v) !! key = lr !! key.
Proof.
  intros Hne. unfold add_attribute.
  destruct (_ && _); [|done].
  destruct (json_serializable v); [|done].
  by rewrite lookup_insert_ne.
Qed.

Lemma fold_add_attribute_other items : forall lr key,
  key ∉ map fst items ->
  fold_left (add_attribute class_dict) items lr !! key = lr !! key.
Proof.
  induction items as [|[k v] items IH]; intros lr key Hnot; [done|].
  simpl in *. apply not_elem_of_cons in Hnot as [Hne Hnot].
  rewrite IH by done. by apply add_attribute_other.
Qed.

Lemma fold_add_attribute_lookup items : forall lr key v,
  NoDup (map fst items) ->
  (key, v) ∈ items ->
  key ∉ class_dict ->
  key ∉ skipped ->
  json_serializable v = true ->
  fold_left (add_attribute class_dict) items lr !! key = Some v.
Proof.
  induction items as [|[k v'] items IH]; intros lr key v Hnd Hin Hc Hs Hj.
  - by apply elem_of_nil in Hin.
  - simpl in *. apply NoDup_cons in Hnd as [Hfresh Hnd].
    apply elem_of_cons in Hin as [[= <- <-]|Hin].
    + rewrite fold_add_attribute_other by done.
      unfold add_attribute.
      rewrite !bool_decide_eq_true_2 by done. simpl. rewrite Hj.
      apply lookup_insert_eq.
    + by apply IH.
Qed.

Lemma fold_add_attribute_unserializable items : forall lr key v,
  NoDup (map fst items) ->
  (key, v) ∈ items ->
  json_serializable v = false ->
  fold_left (add_attribute class_dict) items lr !! key = lr !! key.
Proof.
  induction items as [|[k v'] items IH]; intros lr key v Hnd Hin Hj.
  - by apply elem_of_nil in Hin.
  - simpl in *. apply NoDup_cons in Hnd as [Hfresh Hnd].
    apply elem_of_cons in Hin as [[= <- <-]|Hin].
    + rewrite fold_add_attribute_other by done.
      unfold add_attribute. rewrite Hj. by destruct (_ && _).
    + rewrite (IH _ _ _ Hnd Hin Hj). apply add_attribute_other.
      intros ->. apply Hfresh.
      exact (list_elem_of_fmap_2 fst _ (key, v) Hin).
Qed.

(** What the loop of [add_fields] does for the fields it accepts, whatever
    the base formatter is: an attribute of the record whose key is neither
    bound in the LogRecord class nor one of the five skipped names, and
    whose value is of a listed type, is in the dictionary with that
    value. *)
Lemma serializable_attribute_is_kept log_record record message_dict key v :
  NoDup (map fst (__dict__ record)) ->
  (key, v) ∈ attributes record ->
  key ∉ class_dict ->
  key ∉ skipped ->
  json_serializable v = true ->
  add_fields super_add_fields class_dict now log_record record message_dict
    !! key = Some v.
Proof.
  intros Hnd Hin Hc Hs Hj. unfold add_fields.
  apply fold_add_attribute_lookup; [done| |done|done|done].
  unfold __dict__. by do 2 apply list_elem_of_further.
Qed.

(** And for the fields it does not accept: the loop writes nothing under
    the key of an attribute of another type, so that the key holds after
    [add_fields] what the base formatter put there. *)
Lemma unserializable_attribute_is_left_to_base
    log_record record message_dict key v :
  NoDup (map fst (__dict__ record)) ->
  (key, v) ∈ attributes record ->
  json_serializable v = false ->
  key ∉ [ "timestamp"; "level"; "logger" ] ->
  add_fields super_add_fields class_dict now log_record record message_dict
    !! key = super_add_fields log_record record message_dict !! key.
Proof.
  intros Hnd Hin Hj Hk. unfold add_fields.
  rewrite (fold_add_attribute_unserializable _ _ key v); [|done| |done].
  - rewrite !not_elem_of_cons in Hk. destruct Hk as (? & ? & ? & _).
    by rewrite !lookup_insert_ne.
  - unfold __dict__. by do 2 apply list_elem_of_further.
Qed.

End add_fields_facts.

(** C9, on the code as it runs: the record of a log call with the extra
    fields task_id (an int) and deadline (a datetime, none of the listed
    types) is formatted with both fields in the emitted dictionary: the
    base formatter, called first, has copied every extra field, and the
    type test of [add_fields] only guards a second copy. *)
Theorem unserializable_extra_is_emitted :
  (("deadline", VObject "datetime") ∈ logger.attributes sample_record) /\
  logger.json_serializable (VObject "datetime") = false /\
  emitted !! "task_id" = Some (VInt 1) /\
  emitted !! "deadline" = Some (VObject "datetime").
Proof.
  split.
  { unfold sample_record; cbn [logger.attributes].
    rewrite !elem_of_cons. auto 20. }
  split; [reflexivity|]. by vm_compute.
Qed.

(** The same record shows what else the loop does: the attributes of the
    logging library that the class-dictionary test lets through are
    emitted next to the fields of the call, and a field named like a class
    attribute is not. *)
Example standard_attributes_are_emitted :
  emitted !! "levelno" = Some (VInt 20) /\
  emitted !! "funcName" = Some (VStr "create_task") /\
  emitted !! "__doc__" = None.
Proof. by vm_compute. Qed.

(** * Further properties *)

(** ** The health check and the routes that only read *)

(** X1: GET /health is answered 200 with the fixed payload whatever the
    state of the store and whether or not it can be reached: the handler
    logs one record through the request logger, opens no connection and
    leaves the store as it was. *)
Theorem health_check_is_unconditional env fw req w :
  method req = "GET" -> path req = "/health" ->
  app env fw req w =
  (Return (with_header "X-Request-ID" (request_id env)
             (JSONResponse 200
                (Health [("status", "healthy"); ("service", "task-api")]))),
   extend w
     [ Logged INFO (request_logger env req) "Health check request received"
         [("component", VStr "api")] false;
       completed env req
         (JSONResponse 200
            (Health [("status", "healthy"); ("service", "task-api")])) ]).
Proof.
  intros Hm Hp.
  rewrite (app_unfold env fw req w
             (JSONResponse 200
                (Health [("status", "healthy"); ("service", "task-api")]))
             (extend w
                [Logged INFO (request_logger env req)
                   "Health check request received"
                   [("component", VStr "api")] false])).
  - by rewrite extend_extend.
  - unfold routes, router.
    cbn [method path set_state_logger state_logger
         get_request_logger_dependency].
    rewrite Hm, Hp. reflexivity.
Qed.

(** The theorem at work while the store cannot be reached. *)
Lemma health_check_is_unconditional_witness :
  method get_health = "GET" /\ path get_health = "/health" /\
  app unreachable not_found get_health blank =
  (Return (with_header "X-Request-ID" (request_id unreachable)
             (JSONResponse 200
                (Health [("status", "healthy"); ("service", "task-api")]))),
   extend blank
     [ Logged INFO (request_logger unreachable get_health)
         "Health check request received" [("component", VStr "api")] false;
       completed unreachable get_health
         (JSONResponse 200
            (Health [("status", "healthy"); ("service", "task-api")])) ]).
Proof.
  split; [reflexivity|]. split; [reflexivity|].
  exact (health_check_is_unconditional unreachable not_found get_health blank
           eq_refl eq_refl).
Defined.

(** X2: a GET /tasks request without the user_id query parameter is
    answered 422 before [list_tasks] runs: the only event is the completion
    record of the middleware and the store is as it was. *)
Theorem missing_query_user_id_is_rejected env fw req w :
  method req = "GET" -> path req = "/tasks" ->
  last_value "user_id" (query_params req) = None ->
  app env fw req w =
  (Return (with_header "X-Request-ID" (request_id env)
             (JSONResponse 422 (ValidationErrors "query.user_id"))),
   extend w
     [completed env req
        (JSONResponse 422 (ValidationErrors "query.user_id"))]).
Proof.
  intros Hm Hp Hq. apply app_unfold. unfold routes, router.
  cbn [method path query_params set_state_logger]. rewrite Hm, Hp, Hq.
  reflexivity.
Qed.

(** The theorem at work on [GET /tasks?limit=10]. *)
Lemma missing_query_user_id_is_rejected_witness :
  method get_tasks_bare = "GET" /\ path get_tasks_bare = "/tasks" /\
  last_value "user_id" (query_params get_tasks_bare) = None /\
  app quiet not_found get_tasks_bare busy =
  (Return (with_header "X-Request-ID" (request_id quiet)
             (JSONResponse 422 (ValidationErrors "query.user_id"))),
   extend busy
     [completed quiet get_tasks_bare
        (JSONResponse 422 (ValidationErrors "query.user_id"))]).
Proof.
  split; [reflexivity|]. split; [reflexivity|]. split; [reflexivity|].
  exact (missing_query_user_id_is_rejected quiet not_found get_tasks_bare busy
           eq_refl eq_refl eq_refl).
Defined.

Lemma keeps_store_router_reading env fw req :
  (String.eqb (method req) "POST" && String.eqb (path req) "/tasks") = false ->
  keeps_store (router env fw req).
Proof.
  intros Hnot. unfold router. rewrite Hnot.
  repeat match goal with
         | |- context [if ?b then _ else _] => destruct b
         end;
    repeat match goal with
           | |- context [match ?o with Some _ => _ | None => _ end] =>
               destruct o
           end;
    auto 20 using keeps_store_list_tasks, keeps_store_health_check
      with store_frame.
Qed.

(** X3: only POST /tasks can change the store: every other request, listing
    included and whatever its outcome, leaves the store as it was. *)
Theorem only_create_writes env fw req w :
  (method req, path req) <> ("POST", "/tasks") ->
  store (snd (app env fw req w)) = store w.
Proof.
  intros Hne.
  assert (Hnot : (String.eqb (method req) "POST"
                  && String.eqb (path req) "/tasks") = false).
  { apply andb_false_iff.
    destruct (String.eqb_spec (method req) "POST") as [Hm|]; [|by left].
    destruct (String.eqb_spec (path req) "/tasks") as [Hp|]; [|by right].
    destruct Hne. by rewrite Hm, Hp. }
  revert w. change (keeps_store (app env fw req)).
  unfold app, server_error_middleware, request_middleware, exception_handlers.
  apply keeps_store_try_except; [|auto with store_frame].
  apply keeps_store_try_except; [|auto 10 with store_frame].
  apply keeps_store_bind; [|auto 10 with store_frame].
  apply keeps_store_try_except.
  - by apply keeps_store_router_reading.
  - intros []; try destruct (render_failure _); auto with store_frame.
Qed.

(** The theorem at work on a listing whose connection is lost. *)
Lemma only_create_writes_witness :
  (method (get_tasks "u1"), path (get_tasks "u1")) <> ("POST", "/tasks") /\
  store (snd (app interrupted not_found (get_tasks "u1") busy)) = store busy.
Proof.
  assert (H : (method (get_tasks "u1"), path (get_tasks "u1"))
              <> ("POST", "/tasks")) by discriminate.
  split; [exact H|].
  exact (only_create_writes interrupted not_found (get_tasks "u1") busy H).
Defined.

(** ** What a create-task run leaves in the store *)

(** X4: the task that [create_task] returns is the task it stored: a
    successful run appends exactly one row to the table, the response shows
    that row, its id is the value the sequence had, and the sequence has
    advanced by one. *)
Theorem created_task_is_stored env task lg w r w' :
  create_task env task lg w = (Return r, w') ->
  exists rows row,
    tasks (store w) = Some rows /\
    tasks (store w') = Some (rows ++ [row]) /\
    shows row r /\
    TaskResponse.id r = tasks_id_seq (store w) /\
    tasks_id_seq (store w') = tasks_id_seq (store w) + 1.
Proof.
  destruct (create_task_cases env task lg w)
    as [(e & evs & ->)|(rows & row & Hrows & Hrow & ->)]; [done|].
  intros [= <- <-]. exists rows, row.
  pose proof (new_row_status _ _ _ _ _ _ Hrow) as Hst.
  assert (Hid : r_id row = tasks_id_seq (store w)).
  { unfold new_row in Hrow.
    destruct (varchar 255 (Task.title task)),
      (varchar 255 (Task.user_id task)); try discriminate.
    by injection Hrow as <-. }
  by repeat split.
Qed.

(** The theorem at work on the first task of a started service. *)
Lemma created_task_is_stored_witness :
  exists r w',
    create_task quiet buy_milk ModuleLogger ready = (Return r, w') /\
    exists rows row,
      tasks (store ready) = Some rows /\
      tasks (store w') = Some (rows ++ [row]) /\
      shows row r /\
      TaskResponse.id r = tasks_id_seq (store ready) /\
      tasks_id_seq (store w') = tasks_id_seq (store ready) + 1.
Proof.
  eexists _, _. split; [vm_compute; reflexivity|].
  apply (created_task_is_stored quiet buy_milk ModuleLogger ready).
  vm_compute; reflexivity.
Defined.

(** ** Start-up, when the store answers *)

(** X6: when the store answers, start-up leaves a store that has the tasks
    table, with the rows it held before (none when the table was missing)
    and the sequence untouched, and it closes its connection before it
    logs success; a further start-up, failed or not, changes nothing in
    that store. *)
Theorem startup_creates_schema_once env w :
  connect_error env = None -> statement_error env = None ->
  lifespan_startup env w =
  (Return tt,
   {| store := {| tasks := Some (default [] (tasks (store w)));
                  tasks_id_seq := tasks_id_seq (store w) |};
      trace := trace w ++
        [ Connected; Execute; Closed;
          Logged INFO ModuleLogger "Database initialized successfully"
            [ ("database", VStr (DB_NAME env)); ("host", VStr (DB_HOST env));
              ("component", VStr "database") ] false ] |})
  /\ forall env',
       store (snd (lifespan_startup env' (snd (lifespan_startup env w))))
       = store (snd (lifespan_startup env w)).
Proof.
  intros Hc Hs.
  assert (Hrun : lifespan_startup env w =
    (Return tt,
     {| store := {| tasks := Some (default [] (tasks (store w)));
                    tasks_id_seq := tasks_id_seq (store w) |};
        trace := trace w ++
          [ Connected; Execute; Closed;
            Logged INFO ModuleLogger "Database initialized successfully"
              [ ("database", VStr (DB_NAME env));
                ("host", VStr (DB_HOST env));
                ("component", VStr "database") ] false ] |})).
  { unfold lifespan_startup, try_except, bind, asyncpg.connect,
      asyncpg.execute, asyncpg.execute_outcome, asyncpg.close, log, emit.
    rewrite Hc. simpl. unfold bind. simpl. rewrite Hs. simpl.
    unfold create_schema. destruct (store w) as [[rows|] seq]; simpl;
      by rewrite <- !app_assoc. }
  split; [exact Hrun|]. intros env'. rewrite Hrun. simpl.
  unfold lifespan_startup, try_except, bind, asyncpg.connect,
    asyncpg.execute, asyncpg.execute_outcome, asyncpg.close, log, emit.
  destruct (connect_error env'); simpl; [done|]. unfold bind. simpl.
  destruct (statement_error env'); simpl; done.
Qed.

(** The theorem at work on a table that already holds three rows. *)
Lemma startup_creates_schema_once_witness :
  connect_error quiet = None /\ statement_error quiet = None /\
  store (snd (lifespan_startup quiet busy)) = store busy /\
  forall env',
    store (snd (lifespan_startup env' (snd (lifespan_startup quiet busy))))
    = store (snd (lifespan_startup quiet busy)).
Proof.
  split; [reflexivity|]. split; [reflexivity|]. split; [reflexivity|].
  exact (proj2 (startup_creates_schema_once quiet busy eq_refl eq_refl)).
Defined.

(** ** Properties of the store that every run keeps *)

Section maintained.

Variable P : Store -> Prop.
Hypothesis P_fetchrow :
  forall env title description user_id,
    maintains P (asyncpg.fetchrow env title description user_id).
Hypothesis P_execute : forall env, maintains P (asyncpg.execute env).

Lemma maintains_of_keeps {A} (m : M A) : keeps_store m -> maintains P m.
Proof. intros H w. by rewrite H. Qed.

Lemma maintains_bind {A B} (m : M A) (k : A -> M B) :
  maintains P m -> (forall a, maintains P (k a)) -> maintains P (bind m k).
Proof.
  intros Hm Hk w Hw. unfold bind. specialize (Hm w Hw).
  destruct (m w) as [[a|e] w1]; simpl in *; [|done].
  by apply Hk.
Qed.

Lemma maintains_try_except {A} (m : M A) (h : exn -> M A) :
  maintains P m -> (forall e, maintains P (h e)) ->
  maintains P (try_except m h).
Proof.
  intros Hm Hh w Hw. unfold try_except. specialize (Hm w Hw).
  destruct (m w) as [[a|e] w1]; simpl in *; [done|].
  by apply Hh.
Qed.

#[local] Hint Resolve P_fetchrow P_execute : store_frame.
#[local] Hint Extern 2 (maintains _ (bind _ _)) =>
  apply maintains_bind; [|intros ?] : store_frame.
#[local] Hint Extern 2 (maintains _ (try_except _ _)) =>
  apply maintains_try_except; [|intros ?] : store_frame.
#[local] Hint Extern 5 (maintains _ _) =>
  apply maintains_of_keeps : store_frame.

Lemma maintains_create_task env task lg : maintains P (create_task env task lg).
Proof.
  unfold create_task, create_task_try, asyncpg.close.
  auto 40 using keeps_store_task_response with store_frame.
Qed.

Lemma maintains_lifespan_startup env : maintains P (lifespan_startup env).
Proof.
  unfold lifespan_startup, asyncpg.close. auto 40 with store_frame.
Qed.

Lemma maintains_router env fw req : maintains P (router env fw req).
Proof.
  unfold router.
  repeat match goal with
         | |- context [if ?b then _ else _] => destruct b
         end;
    repeat match goal with
           | |- context [match ?o with Some _ => _ | None => _ end] =>
               destruct o
           end;
    auto 20 using maintains_create_task, keeps_store_list_tasks,
      keeps_store_health_check with store_frame.
Qed.

Lemma maintains_app env fw req : maintains P (app env fw req).
Proof.
  unfold app, server_error_middleware, request_middleware, exception_handlers.
  apply maintains_try_except; [|auto with store_frame].
  apply maintains_try_except; [|auto 10 with store_frame].
  apply maintains_bind; [|auto 10 with store_frame].
  apply maintains_try_except; [apply maintains_router|].
  intros []; try destruct (render_failure _); auto with store_frame.
Qed.

Lemma reachable_maintains w0 w :
  P (store w0) -> reachable w0 w -> P (store w).
Proof.
  intros H0 Hr. induction Hr as [|env w _ IH|env fw req w _ IH]; [done| |].
  - by apply maintains_lifespan_startup.
  - by apply maintains_app.
Qed.

End maintained.

Lemma keyed_fetchrow env title description user_id :
  maintains keyed (asyncpg.fetchrow env title description user_id).
Proof.
  intros w Hw. unfold asyncpg.fetchrow, bind. simpl.
  destruct (asyncpg.fetchrow_outcome _ _ _ _ _) as [e|[rec st']] eqn:Hout;
    simpl; [done|].
  apply fetchrow_outcome_inr in Hout
    as (rows & row & _ & Hrows & Hrow & _ & ->).
  destruct (Hw rows Hrows) as [Hlt Hnd].
  pose proof (new_row_id _ _ _ _ _ _ Hrow) as Hid.
  intros rows' [= <-]. simpl. split.
  - apply Forall_app. split.
    + eapply Forall_impl; [exact Hlt|]. simpl. intros; lia.
    + apply Forall_singleton. lia.
  - rewrite map_app. apply NoDup_app. split; [done|]. split.
    + intros i Hi [->|[]%elem_of_nil]%elem_of_cons.
      apply list_elem_of_fmap in Hi as (r & Hr & Hin).
      pose proof (proj1 (Forall_forall _ _) Hlt r Hin). simpl in *. lia.
    + apply NoDup_singleton.
Qed.

Lemma keyed_execute env : maintains keyed (asyncpg.execute env).
Proof.
  intros w Hw. unfold asyncpg.execute, bind, asyncpg.execute_outcome. simpl.
  destruct (statement_error env); simpl; [done|].
  unfold create_schema. destruct (tasks (store w)) eqn:Hrows; [done|].
  intros rows [= <-]. split; constructor.
Qed.

Lemma blank_keyed : keyed (store blank).
Proof. by intros rows. Qed.

Lemma blank_status_set : status_set (store blank).
Proof. by intros rows. Qed.

(** X7: in every world the service reaches from an empty database, the ids
    of the stored tasks are pairwise distinct and all below the next value
    of the sequence. *)
Theorem reachable_ids_are_distinct w rows :
  reachable blank w -> tasks (store w) = Some rows ->
  NoDup (map r_id rows) /\
  Forall (fun r => r_id r < tasks_id_seq (store w)) rows.
Proof.
  intros Hr Hrows.
  destruct (reachable_maintains keyed keyed_fetchrow keyed_execute blank w
              blank_keyed Hr rows Hrows).
  done.
Qed.

(** X8: the id of a task created in such a world is fresh: it is greater
    than the id of every task stored before. *)
Theorem created_id_is_fresh env task lg w rows r w' :
  reachable blank w -> tasks (store w) = Some rows ->
  create_task env task lg w = (Return r, w') ->
  Forall (fun row => r_id row < TaskResponse.id r) rows.
Proof.
  intros Hr Hrows.
  destruct (create_task_cases env task lg w)
    as [(e0 & evs & ->)|(rows' & row & _ & Hrow & ->)]; [done|].
  intros [= <- _]. simpl. rewrite (new_row_id _ _ _ _ _ _ Hrow).
  destruct (reachable_maintains keyed keyed_fetchrow keyed_execute blank w
              blank_keyed Hr rows Hrows).
  done.
Qed.

Lemma served_reachable : reachable blank served.
Proof. apply reach_request, reach_startup, reach_initial. Qed.

Lemma stocked_reachable : reachable blank stocked.
Proof.
  unfold stocked. do 2 apply reach_request. exact served_reachable.
Qed.

(** The theorem at work after three tasks have been created for two users,
    with ids 1, 2 and 3. *)
Lemma reachable_ids_are_distinct_witness :
  reachable blank stocked /\
  exists rows,
    tasks (store stocked) = Some rows /\
    map r_id rows = [1; 2; 3] /\
    map r_user_id rows = ["u1"; "u2"; "u1"] /\
    tasks_id_seq (store stocked) = 4 /\
    NoDup (map r_id rows) /\
    Forall (fun r => r_id r < tasks_id_seq (store stocked)) rows.
Proof.
  split; [exact stocked_reachable|].
  eexists. split; [vm_compute; reflexivity|].
  split; [reflexivity|]. split; [reflexivity|]. split; [reflexivity|].
  apply (reachable_ids_are_distinct stocked _ stocked_reachable).
  vm_compute; reflexivity.
Defined.

(** The theorem at work after one task has been created. *)
Lemma created_id_is_fresh_witness :
  reachable blank served /\
  exists rows r w',
    tasks (store served) = Some rows /\
    create_task quiet buy_milk ModuleLogger served = (Return r, w') /\
    Forall (fun row => r_id row < TaskResponse.id r) rows.
Proof.
  split; [exact served_reachable|].
  eexists _, _, _. split; [vm_compute; reflexivity|].
  split; [vm_compute; reflexivity|].
  eapply (created_id_is_fresh quiet buy_milk ModuleLogger served _ _ _
            served_reachable).
  - vm_compute; reflexivity.
  - vm_compute; reflexivity.
Defined.

(** ** What a listing holds *)

Lemma comprehension_returns rows : forall out w w',
  comprehension task_response (map selected_columns rows) w = (Return out, w')
  -> Forall2 shows rows out.
Proof.
  induction rows as [|r rows IH]; intros out w w'.
  - simpl. unfold ret. intros [= <- _]. constructor.
  - cbn [map comprehension]. unfold bind at 1.
    destruct (r_status r) as [s|] eqn:Hs.
    + rewrite (task_response_shows r
                 {| TaskResponse.id := r_id r;
                    TaskResponse.title := r_title r;
                    TaskResponse.description := r_description r;
                    TaskResponse.status := s;
                    TaskResponse.user_id := r_user_id r |})
        by by repeat split.
      unfold bind at 1.
      destruct (comprehension task_response (map selected_columns rows) w)
        as [[out'|e] w1] eqn:Hrest; [|done].
      unfold ret. intros [= <- _].
      constructor; [by repeat split | by eapply IH].
    + by rewrite (task_response_null r w Hs).
Qed.

(** A listing that returns has gone down the path without error. *)
Lemma list_tasks_returns_inv env u lg w out w' :
  list_tasks env u lg w = (Return out, w') ->
  exists rows,
    connect_error env = None /\ statement_error env = None /\
    tasks (store w) = Some rows /\
    Forall2 shows (select_rows u rows) out.
Proof.
  destruct (connect_error env) as [msg|] eqn:Hc.
  { by rewrite (list_tasks_connect_fails _ _ _ _ _ Hc). }
  destruct (asyncpg.fetch_outcome env (store w) u) as [e|recs] eqn:Hf.
  { by rewrite (list_tasks_statement_fails _ _ _ _ _ Hc Hf). }
  unfold asyncpg.fetch_outcome, select_by_user in Hf.
  destruct (statement_error env) eqn:Hs; [done|].
  destruct (tasks (store w)) as [rows|] eqn:Hrows; [|done].
  destruct (has_nul u) eqn:Hnul; [done|].
  injection Hf as <-. fold (select_rows u rows).
  rewrite list_tasks_unfold.
  unfold list_tasks_try, bind, asyncpg.connect, asyncpg.fetch,
    asyncpg.fetch_outcome, select_by_user. rewrite Hc.
  simpl. unfold bind. simpl. rewrite Hs, Hrows, Hnul. simpl.
  fold (select_rows u rows).
  destruct (comprehension _ _ _) as [[out'|e] w1] eqn:Hrun; [|done].
  intros [= <- _]. exists rows. repeat split; try done.
  by eapply comprehension_returns.
Qed.

(** X9: a listing never shows a task of another user: every task that
    [list_tasks] returns for a user_id carries that user_id, and there are
    as many of them as the table has rows of that user. *)
Theorem listing_holds_only_the_users_tasks env user_id lg w out w' :
  list_tasks env user_id lg w = (Return out, w') ->
  Forall (fun t => TaskResponse.user_id t = user_id) out /\
  exists rows,
    tasks (store w) = Some rows /\
    length out = length (filter (fun r => r_user_id r = user_id) rows).
Proof.
  intros (rows & _ & _ & Hrows & Hout)%list_tasks_returns_inv.
  assert (Hperm : select_rows user_id rows ≡ₚ matching user_id rows)
    by apply merge_sort_Permutation.
  split.
  - apply Forall_forall. intros t Ht.
    apply list_elem_of_lookup in Ht as [i Hi].
    destruct (Forall2_lookup_r _ _ _ _ _ Hout Hi) as (r & Hr & Hshows).
    destruct Hshows as (_ & _ & _ & _ & ->).
    apply list_elem_of_lookup_2 in Hr. rewrite Hperm in Hr.
    by apply list_elem_of_filter in Hr as [? _].
  - exists rows. split; [done|].
    rewrite <- (Forall2_length _ _ _ Hout). by rewrite Hperm.
Qed.

(** The theorem at work on the table of three rows. *)
Lemma listing_holds_only_the_users_tasks_witness :
  exists out w',
    list_tasks quiet "u1" ModuleLogger busy = (Return out, w') /\
    Forall (fun t => TaskResponse.user_id t = "u1") out /\
    exists rows,
      tasks (store busy) = Some rows /\
      length out = length (filter (fun r => r_user_id r = "u1") rows).
Proof.
  eexists _, _. split; [vm_compute; reflexivity|].
  eapply (listing_holds_only_the_users_tasks quiet "u1" ModuleLogger busy).
  vm_compute; reflexivity.
Defined.

Lemma sorted_rows_unique l1 : forall l2,
  StronglySorted id_desc l1 -> StronglySorted id_desc l2 ->
  l1 ≡ₚ l2 -> NoDup (map r_id l1) -> l1 = l2.
Proof.
  induction l1 as [|a l1 IH]; intros l2 H1 H2 Hperm Hnd.
  - by apply Permutation_nil_l in Hperm.
  - destruct l2 as [|b l2]; [by apply Permutation_nil_r in Hperm|].
    apply StronglySorted_inv in H1 as [H1 Ha].
    apply StronglySorted_inv in H2 as [H2 Hb].
    simpl in Hnd. apply NoDup_cons in Hnd as [Hfresh Hnd].
    assert (a = b) as ->.
    { assert (Hin : a ∈ b :: l2) by (rewrite <- Hperm; left).
      apply elem_of_cons in Hin as [->|Hin]; [done|].
      assert (Hin' : b ∈ a :: l1) by (rewrite Hperm; left).
      apply elem_of_cons in Hin' as [->|Hin']; [done|].
      pose proof (proj1 (Forall_forall _ _) Hb a Hin) as Hle1.
      pose proof (proj1 (Forall_forall _ _) Ha b Hin') as Hle2.
      unfold id_desc in *. destruct Hfresh.
      replace (r_id a) with (r_id b) by lia.
      exact (list_elem_of_fmap_2 r_id _ _ Hin'). }
    f_equal. apply IH; try done. by apply Permutation_cons_inv in Hperm.
Qed.

Lemma select_rows_ids_distinct u rows :
  NoDup (map r_id rows) -> NoDup (map r_id (select_rows u rows)).
Proof.
  intros Hnd. unfold select_rows.
  rewrite (merge_sort_Permutation id_desc (matching u rows)).
  apply (sublist_NoDup _ _ Hnd).
  apply (fmap_sublist r_id), sublist_filter.
Qed.

Lemma select_rows_elem_of u rows r :
  r ∈ select_rows u rows -> r ∈ rows /\ r_user_id r = u.
Proof.
  unfold select_rows. rewrite (merge_sort_Permutation id_desc (matching u rows)).
  intros [? ?]%list_elem_of_filter. done.
Qed.

Lemma strictly_sorted_rows l :
  StronglySorted id_desc l -> NoDup (map r_id l) ->
  StronglySorted (fun a b => r_id b < r_id a) l.
Proof.
  induction 1 as [|a l Hs IH Ha]; intros Hnd; constructor.
  - apply IH. simpl in Hnd. by apply NoDup_cons in Hnd as [_ ?].
  - simpl in Hnd. apply NoDup_cons in Hnd as [Hfresh _].
    apply Forall_forall. intros b Hb.
    pose proof (proj1 (Forall_forall _ _) Ha b Hb) as Hle.
    unfold id_desc in Hle.
    assert (r_id b <> r_id a); [|lia].
    intros E. apply Hfresh. rewrite <- E.
    exact (list_elem_of_fmap_2 r_id _ _ Hb).
Qed.

Lemma shows_strictly_sorted rows out :
  Forall2 shows rows out ->
  StronglySorted (fun a b => r_id b < r_id a) rows ->
  StronglySorted (fun a b => TaskResponse.id b < TaskResponse.id a) out.
Proof.
  induction 1 as [|r t rows out Hrt Hrest IH]; intros Hs; constructor.
  - apply IH. by apply StronglySorted_inv in Hs as [? _].
  - apply StronglySorted_inv in Hs as [_ Hr].
    apply Forall_forall. intros t' Ht'.
    apply list_elem_of_lookup in Ht' as [i Hi].
    destruct (Forall2_lookup_r _ _ _ _ _ Hrest Hi) as (r' & Hr' & Hshows).
    apply list_elem_of_lookup_2 in Hr'.
    pose proof (proj1 (Forall_forall _ _) Hr r' Hr') as Hlt.
    destruct Hrt as (-> & _), Hshows as (-> & _). exact Hlt.
Qed.

(** X10: in every world the service reaches from an empty database, the
    tasks of a listing come with strictly descending ids: newest first and
    no id twice. *)
Theorem reachable_listing_is_strictly_descending env user_id lg w out w' :
  reachable blank w ->
  list_tasks env user_id lg w = (Return out, w') ->
  StronglySorted (fun a b => TaskResponse.id b < TaskResponse.id a) out.
Proof.
  intros Hr (rows & _ & _ & Hrows & Hout)%list_tasks_returns_inv.
  destruct (reachable_maintains keyed keyed_fetchrow keyed_execute blank w
              blank_keyed Hr rows Hrows) as [_ Hnd].
  apply (shows_strictly_sorted _ _ Hout), strictly_sorted_rows.
  - apply (StronglySorted_merge_sort id_desc).
  - by apply select_rows_ids_distinct.
Qed.

(** The theorem at work after three tasks have been created, the first
    and the third for user u1: the listing of u1 is task 3, then task 1. *)
Lemma reachable_listing_is_strictly_descending_witness :
  reachable blank stocked /\
  exists out w',
    list_tasks quiet "u1" ModuleLogger stocked = (Return out, w') /\
    map TaskResponse.id out = [3; 1] /\
    map TaskResponse.title out = ["Call Ann"; "Buy milk"] /\
    StronglySorted (fun a b => TaskResponse.id b < TaskResponse.id a) out.
Proof.
  split; [exact stocked_reachable|].
  eexists _, _. split; [vm_compute; reflexivity|].
  split; [reflexivity|]. split; [reflexivity|].
  eapply (reachable_listing_is_strictly_descending quiet "u1" ModuleLogger
            stocked _ _ stocked_reachable).
  vm_compute; reflexivity.
Defined.

Lemma new_row_user_id now st title description user_id row :
  (char_length user_id <= 255)%nat ->
  new_row now st title description user_id = Some row ->
  r_user_id row = user_id.
Proof.
  intros Hfit. unfold new_row. rewrite (varchar_fits _ _ Hfit).
  destruct (varchar 255 title); [|done]. by intros [= <-].
Qed.

Lemma list_tasks_refuses_nul env u lg w rows :
  connect_error env = None -> statement_error env = None ->
  tasks (store w) = Some rows -> has_nul u = true ->
  fst (list_tasks env u lg w)
  = Raise (database_error character_not_in_repertoire).
Proof.
  intros Hc Hs Hrows Hnul.
  rewrite (list_tasks_statement_fails env u lg w
             character_not_in_repertoire Hc); [done|].
  unfold asyncpg.fetch_outcome, select_by_user. by rewrite Hs, Hrows, Hnul.
Qed.

(** X11: creating and then listing round-trips.  In a world the service
    reaches from an empty database, after a task has been created for a
    user_id of at most 255 characters, the listing of that user is the
    created task followed by the listing as it was before, and the listing
    of every other user is what it was. *)
Theorem created_task_heads_listing env env' task lg lg' w r w' :
  reachable blank w ->
  (char_length (Task.user_id task) <= 255)%nat ->
  create_task env task lg w = (Return r, w') ->
  connect_error env' = None -> statement_error env' = None ->
  exists before,
    fst (list_tasks env' (Task.user_id task) lg' w) = Return before /\
    fst (list_tasks env' (Task.user_id task) lg' w') = Return (r :: before) /\
    forall other,
      other <> Task.user_id task ->
      fst (list_tasks env' other lg' w') = fst (list_tasks env' other lg' w).
Proof.
  intros Hr Hfit Hrun Hc Hs.
  destruct (create_task_returns_inv _ _ _ _ _ _ Hrun)
    as (_ & rec & st' & Hins).
  destruct (fetchrow_outcome_checked _ _ _ _ _ _ _ Hins)
    as (_ & _ & Hclean & _).
  clear rec st' Hins.
  destruct (create_task_cases env task lg w)
    as [(e0 & evs & Hfail)|(rows & row & Hrows & Hrow & Hok)];
    [by rewrite Hfail in Hrun|].
  rewrite Hok in Hrun. injection Hrun as <- <-.
  destruct (reachable_maintains keyed keyed_fetchrow keyed_execute blank w
              blank_keyed Hr rows Hrows) as [Hlt Hnd].
  pose proof (reachable_status_set blank w blank_status_set Hr rows Hrows)
    as Hstat.
  pose proof (new_row_user_id _ _ _ _ _ _ Hfit Hrow) as Hu.
  pose proof (new_row_id _ _ _ _ _ _ Hrow) as Hid.
  pose proof (new_row_status _ _ _ _ _ _ Hrow) as Hst.
  set (w1 := {| store := {| tasks := Some (rows ++ [row]);
                            tasks_id_seq := tasks_id_seq (store w) + 1 |};
                trace := _ |}).
  assert (Hsel : forall u,
             Forall (fun r => is_Some (r_status r)) (select_rows u rows)).
  { intros u. apply Forall_forall. intros x [Hx _]%select_rows_elem_of.
    exact (proj1 (Forall_forall _ _) Hstat x Hx). }
  destruct (shows_exists _ (Hsel (Task.user_id task))) as [before Hbefore].
  assert (Hnew : select_rows (Task.user_id task) (rows ++ [row])
                 = row :: select_rows (Task.user_id task) rows).
  { apply sorted_rows_unique.
    - apply (StronglySorted_merge_sort id_desc).
    - constructor; [apply (StronglySorted_merge_sort id_desc)|].
      apply Forall_forall. intros x [Hx _]%select_rows_elem_of.
      pose proof (proj1 (Forall_forall _ _) Hlt x Hx). unfold id_desc.
      simpl in *. lia.
    - unfold select_rows, matching.
      rewrite !(merge_sort_Permutation id_desc), filter_app.
      rewrite (filter_singleton_True _ row []) by done.
      by rewrite Permutation_app_comm.
    - apply select_rows_ids_distinct. rewrite map_app.
      apply NoDup_app. split; [done|]. split; [|apply NoDup_singleton].
      intros i Hi [->|[]%elem_of_nil]%elem_of_cons.
      apply list_elem_of_fmap in Hi as (x & Hx & Hin).
      pose proof (proj1 (Forall_forall _ _) Hlt x Hin). simpl in *. lia. }
  exists before. split; [|split].
  - by rewrite (list_tasks_succeeds env' _ lg' w rows before Hc Hs Hrows
                  Hclean).
  - rewrite (list_tasks_succeeds env' _ lg' w1 (rows ++ [row])
               ({| TaskResponse.id := r_id row;
                   TaskResponse.title := r_title row;
                   TaskResponse.description := r_description row;
                   TaskResponse.status := "pending";
                   TaskResponse.user_id := r_user_id row |} :: before)
               Hc Hs eq_refl Hclean); [done|].
    rewrite Hnew. constructor; [by repeat split | done].
  - intros other Hother.
    destruct (has_nul other) eqn:Hnul.
    { rewrite (list_tasks_refuses_nul env' other lg' w1 (rows ++ [row])
                 Hc Hs eq_refl Hnul).
      by rewrite (list_tasks_refuses_nul env' other lg' w rows
                    Hc Hs Hrows Hnul). }
    destruct (shows_exists _ (Hsel other)) as [out Hout].
    assert (Hsame : select_rows other (rows ++ [row]) = select_rows other rows).
    { unfold select_rows, matching. rewrite filter_app.
      rewrite (filter_singleton_False _ row []) by (rewrite Hu; congruence).
      by rewrite app_nil_r. }
    rewrite (list_tasks_succeeds env' other lg' w1 (rows ++ [row]) out
               Hc Hs eq_refl Hnul) by by rewrite Hsame.
    by rewrite (list_tasks_succeeds env' other lg' w rows out Hc Hs Hrows
                  Hnul).
Qed.

Lemma ready_reachable : reachable blank ready.
Proof. apply reach_startup, reach_initial. Qed.

(** The theorem at work on a service that holds three tasks, two of user
    u1 and one of user u2: a fourth task is created for u1; it heads the
    listing of u1, before tasks 3 and 1, and the listing of u2, which is
    task 2, is what it was. *)
Lemma created_task_heads_listing_witness :
  reachable blank stocked /\
  (char_length (Task.user_id water_plants) <= 255)%nat /\
  connect_error quiet = None /\ statement_error quiet = None /\
  exists r w' before,
    create_task quiet water_plants ModuleLogger stocked = (Return r, w') /\
    TaskResponse.id r = 4 /\
    map TaskResponse.id before = [3; 1] /\
    fst (list_tasks quiet "u1" ModuleLogger stocked) = Return before /\
    fst (list_tasks quiet "u1" ModuleLogger w') = Return (r :: before) /\
    fst (list_tasks quiet "u2" ModuleLogger w')
    = fst (list_tasks quiet "u2" ModuleLogger stocked) /\
    (exists t,
       fst (list_tasks quiet "u2" ModuleLogger stocked) = Return [t] /\
       TaskResponse.id t = 2) /\
    forall other,
      other <> "u1" ->
      fst (list_tasks quiet other ModuleLogger w')
      = fst (list_tasks quiet other ModuleLogger stocked).
Proof.
  assert (Hfit : (char_length (Task.user_id water_plants) <= 255)%nat)
    by (vm_compute; lia).
  split; [exact stocked_reachable|]. split; [exact Hfit|].
  split; [reflexivity|]. split; [reflexivity|].
  assert (Hrun : exists r w',
             create_task quiet water_plants ModuleLogger stocked
             = (Return r, w') /\ TaskResponse.id r = 4)
    by (eexists _, _; split; [vm_compute; reflexivity | reflexivity]).
  destruct Hrun as (r & w' & Hrun & Hid).
  destruct (created_task_heads_listing quiet quiet water_plants ModuleLogger
              ModuleLogger stocked r w' stocked_reachable Hfit Hrun
              eq_refl eq_refl) as (before & H1 & H2 & H3).
  exists r, w', before. split; [exact Hrun|]. split; [exact Hid|].
  assert (Hbefore : fst (list_tasks quiet "u1" ModuleLogger stocked)
                    = Return before) by exact H1.
  split.
  { vm_compute in Hbefore. injection Hbefore as <-. reflexivity. }
  split; [exact H1|]. split; [exact H2|].
  split; [apply H3; discriminate|].
  split; [|exact H3].
  eexists. split; [vm_compute; reflexivity | reflexivity].
Defined.

(** ** The log records of a request *)

Lemma traces_via_ret {A} lg (a : A) : traces_via lg (ret a).
Proof. intros w. exists []. by rewrite app_nil_r. Qed.

Lemma traces_via_raise {A} lg e : traces_via lg (@raise A e).
Proof. intros w. exists []. by rewrite app_nil_r. Qed.

Lemma traces_via_of_result {A} lg (r : result A) :
  traces_via lg (of_result r).
Proof. intros w. exists []. by rewrite app_nil_r. Qed.

Lemma traces_via_emit lg ev : logged_via lg ev -> traces_via lg (emit ev).
Proof. intros H w. exists [ev]. split; [done|]. by constructor. Qed.

Lemma traces_via_log lg lvl msg extra exc :
  traces_via lg (log lvl lg msg extra exc).
Proof. by apply traces_via_emit. Qed.

Lemma traces_via_bind {A B} lg (m : M A) (k : A -> M B) :
  traces_via lg m -> (forall a, traces_via lg (k a)) ->
  traces_via lg (bind m k).
Proof.
  intros Hm Hk w. unfold bind. destruct (Hm w) as (evs1 & H1 & F1).
  destruct (m w) as [[a|e] w1]; simpl in *; [|by exists evs1].
  destruct (Hk a w1) as (evs2 & H2 & F2).
  exists (evs1 ++ evs2). rewrite H2, H1, app_assoc. split; [done|].
  by apply Forall_app.
Qed.

Lemma traces_via_try_except {A} lg (m : M A) (h : exn -> M A) :
  traces_via lg m -> (forall e, traces_via lg (h e)) ->
  traces_via lg (try_except m h).
Proof.
  intros Hm Hh w. unfold try_except. destruct (Hm w) as (evs1 & H1 & F1).
  destruct (m w) as [[a|e] w1]; simpl in *; [by exists evs1|].
  destruct (Hh e w1) as (evs2 & H2 & F2).
  exists (evs1 ++ evs2). rewrite H2, H1, app_assoc. split; [done|].
  by apply Forall_app.
Qed.

Lemma traces_via_connect lg env : traces_via lg (asyncpg.connect env).
Proof.
  unfold asyncpg.connect. destruct (connect_error env).
  - apply traces_via_raise.
  - by apply traces_via_emit.
Qed.

Lemma traces_via_silent {A} lg (f : World -> result A * World) :
  (forall w, trace (snd (f w)) = trace w) -> traces_via lg f.
Proof. intros H w. exists []. by rewrite H, app_nil_r. Qed.

Lemma traces_via_fetchrow lg env title description user_id :
  traces_via lg (asyncpg.fetchrow env title description user_id).
Proof.
  unfold asyncpg.fetchrow. apply traces_via_bind.
  - by apply traces_via_emit.
  - intros _. apply traces_via_silent. intros w.
    by destruct (asyncpg.fetchrow_outcome _ _ _ _ _) as [|[]].
Qed.

Lemma traces_via_fetch lg env user_id :
  traces_via lg (asyncpg.fetch env user_id).
Proof.
  unfold asyncpg.fetch. apply traces_via_bind.
  - by apply traces_via_emit.
  - intros _. apply traces_via_silent. intros w.
    by destruct (asyncpg.fetch_outcome _ _ _).
Qed.

Lemma traces_via_close lg : traces_via lg asyncpg.close.
Proof. by apply traces_via_emit. Qed.

Lemma traces_via_getitem lg r k : traces_via lg (asyncpg.getitem r k).
Proof.
  unfold asyncpg.getitem. destruct (column k r).
  - apply traces_via_ret.
  - apply traces_via_raise.
Qed.

Create HintDb trace_frame.
#[local] Hint Resolve traces_via_ret traces_via_raise traces_via_of_result
  traces_via_log traces_via_connect traces_via_fetchrow traces_via_fetch
  traces_via_close traces_via_getitem : trace_frame.
#[local] Hint Extern 2 (traces_via _ (bind _ _)) =>
  apply traces_via_bind; [|intros ?] : trace_frame.
#[local] Hint Extern 2 (traces_via _ (try_except _ _)) =>
  apply traces_via_try_except; [|intros ?] : trace_frame.

Lemma traces_via_task_response lg row : traces_via lg (task_response row).
Proof. unfold task_response. auto 20 with trace_frame. Qed.

Lemma traces_via_comprehension {A B} lg (f : A -> M B) rows :
  (forall a, traces_via lg (f a)) -> traces_via lg (comprehension f rows).
Proof.
  intros Hf. induction rows as [|r rows IH]; simpl; auto 10 with trace_frame.
Qed.

Lemma traces_via_create_task lg env task :
  traces_via lg (create_task env task lg).
Proof.
  unfold create_task, create_task_try.
  auto 40 using traces_via_task_response with trace_frame.
Qed.

Lemma traces_via_list_tasks lg env u : traces_via lg (list_tasks env u lg).
Proof.
  unfold list_tasks, list_tasks_try.
  auto 40 using traces_via_comprehension, traces_via_task_response
    with trace_frame.
Qed.

Lemma traces_via_health_check lg : traces_via lg (health_check lg).
Proof. unfold health_check. auto with trace_frame. Qed.

Lemma traces_via_router lg env fw req :
  state_logger req = Some lg -> traces_via lg (router env fw req).
Proof.
  intros Hlg. unfold router, get_request_logger_dependency. rewrite Hlg.
  repeat match goal with
         | |- context [if ?b then _ else _] => destruct b
         end;
    repeat match goal with
           | |- context [match ?o with Some _ => _ | None => _ end] =>
               destruct o
           end;
    auto 20 using traces_via_create_task, traces_via_list_tasks,
      traces_via_health_check with trace_frame.
Qed.

Lemma traces_via_app env fw req :
  traces_via (request_logger env req) (app env fw req).
Proof.
  unfold app, server_error_middleware, request_middleware, exception_handlers.
  fold (request_id env). fold (request_logger env req).
  apply traces_via_try_except; [|auto with trace_frame].
  apply traces_via_try_except; [|auto 10 with trace_frame].
  apply traces_via_bind; [|auto 10 with trace_frame].
  apply traces_via_try_except; [by apply traces_via_router|].
  intros []; try destruct (render_failure _); auto with trace_frame.
Qed.



(** ** The middleware, seen from its caller *)

(** X13: the middleware never swallows a failure: when [call_next] raises,
    the middleware logs one error record, which holds the text of the
    failure, and raises the very same exception; it builds no response, so
    that the 500 the framework then answers has no X-Request-ID header. *)
Theorem unhandled_failure_is_logged_and_reraised env req call_next w e w' :
  call_next (set_state_logger (request_logger env req) req) w = (Raise e, w') ->
  request_middleware env req call_next w
  = (Raise e, extend w' [request_failed env req e])
  /\ exists resp,
       fst (server_error_middleware
              (request_middleware env req call_next) w) = Return resp
       /\ status_code resp = 500
       /\ header "X-Request-ID" (response_headers resp) = None.
Proof.
  intros H.
  assert (Hrun : request_middleware env req call_next w
                 = (Raise e, extend w' [request_failed env req e])).
  { unfold request_middleware, try_except.
    fold (request_id env). fold (request_logger env req).
    unfold bind. rewrite H. reflexivity. }
  split; [exact Hrun|].
  unfold server_error_middleware, try_except. rewrite Hrun.
  eexists. split; [reflexivity|]. split; reflexivity.
Qed.

(** The theorem at work on a handler chain that lets a KeyError through. *)
Lemma unhandled_failure_is_logged_and_reraised_witness :
  failing_call_next (set_state_logger (request_logger quiet get_health)
                       get_health) ready
  = (Raise (KeyError "boom"), ready) /\
  request_middleware quiet get_health failing_call_next ready
  = (Raise (KeyError "boom"),
     extend ready [request_failed quiet get_health (KeyError "boom")]).
Proof.
  split; [reflexivity|].
  exact (proj1 (unhandled_failure_is_logged_and_reraised quiet get_health
                  failing_call_next ready (KeyError "boom") ready eq_refl)).
Defined.

Lemma header_set_header_other key key' value raw :
  lower key' <> lower key ->
  header key' (set_header key value raw) = header key' raw.
Proof.
  intros Hne. induction raw as [|[k v] raw IH]; simpl.
  - destruct (String.eqb_spec (lower key) (lower key')); congruence.
  - destruct (String.eqb_spec k (lower key)) as [->|Hk]; simpl.
    + destruct (String.eqb_spec (lower key) (lower key')); [congruence|].
      clear IH. induction raw as [|[k2 v2] raw IH2]; [done|].
      unfold without in *. rewrite filter_cons. simpl.
      destruct (decide (k2 <> lower key)) as [Hk2|Hk2]; simpl.
      * destruct (String.eqb k2 (lower key')); [done | exact IH2].
      * apply dec_stable in Hk2. subst k2.
        destruct (String.eqb_spec (lower key) (lower key')); [congruence|].
        exact IH2.
    + destruct (String.eqb k (lower key')); [done | exact IH].
Qed.

Lemma set_header_once key value raw :
  filter (fun kv => fst kv = lower key) (set_header key value raw)
  = [(lower key, value)].
Proof.
  induction raw as [|[k v] raw IH]; simpl.
  - by rewrite filter_cons_True.
  - destruct (String.eqb_spec k (lower key)) as [->|Hk].
    + rewrite filter_cons_True by done. f_equal.
      unfold without. clear IH.
      induction raw as [|[k2 v2] raw IH2]; [done|].
      rewrite filter_cons. simpl.
      destruct (decide (k2 <> lower key)) as [Hk2|Hk2]; [|exact IH2].
      by rewrite filter_cons_False.
    + by rewrite filter_cons_False.
Qed.

Lemma set_header_others key value raw :
  filter (fun kv => fst kv <> lower key) (set_header key value raw)
  = filter (fun kv => fst kv <> lower key) raw.
Proof.
  induction raw as [|[k v] raw IH]; simpl.
  - by rewrite filter_cons_False by (simpl; intros H; by apply H).
  - destruct (String.eqb_spec k (lower key)) as [->|Hk].
    + rewrite !filter_cons_False by (simpl; intros H; by apply H).
      unfold without. clear IH.
      induction raw as [|[k2 v2] raw IH2]; [done|].
      rewrite filter_cons. simpl.
      destruct (decide (k2 <> lower key)) as [Hk2|Hk2]; [|exact IH2].
      rewrite filter_cons_True by done. by rewrite IH2.
    + rewrite !filter_cons_True by done. by rewrite IH.
Qed.

(** X14: a response that passes the middleware is changed in one place
    only: status code and content are what [call_next] returned, the
    headers of every other name are the same entries in the same order,
    repeated names included, and the response leaves with exactly one
    X-Request-ID header, the identifier of the request, whatever headers
    of that name it came with. *)
Theorem middleware_only_sets_request_id env req call_next w resp w' :
  call_next (set_state_logger (request_logger env req) req) w
  = (Return resp, w') ->
  exists resp',
    fst (request_middleware env req call_next w) = Return resp' /\
    status_code resp' = status_code resp /\
    response_content resp' = response_content resp /\
    filter (fun kv => fst kv <> "x-request-id") (response_headers resp')
    = filter (fun kv => fst kv <> "x-request-id") (response_headers resp) /\
    (forall key,
       lower key <> "x-request-id" ->
       header key (response_headers resp')
       = header key (response_headers resp)) /\
    filter (fun kv => fst kv = "x-request-id") (response_headers resp')
    = [("x-request-id", request_id env)].
Proof.
  intros H. rewrite (request_middleware_returns _ _ _ _ _ _ H).
  eexists. split; [reflexivity|]. split; [reflexivity|].
  split; [reflexivity|]. split; [|split].
  - apply (set_header_others "X-Request-ID").
  - intros key Hne. by apply header_set_header_other.
  - apply (set_header_once "X-Request-ID").
Qed.

(** The theorem at work on a response that arrives with two headers of that
    name and two cookies: both cookies leave, in their order. *)
Lemma middleware_only_sets_request_id_witness :
  exists resp',
    fst (request_middleware quiet get_health echoing_call_next ready)
    = Return resp' /\
    status_code resp' = 201 /\
    response_content resp' = Detail "made" /\
    filter (fun kv => fst kv <> "x-request-id") (response_headers resp')
    = [ ("content-type", "application/json");
        ("set-cookie", "a=1"); ("set-cookie", "b=2") ] /\
    header "Set-Cookie" (response_headers resp') = Some "a=1" /\
    filter (fun kv => fst kv = "x-request-id") (response_headers resp')
    = [("x-request-id", request_id quiet)].
Proof.
  destruct (middleware_only_sets_request_id quiet get_health
              echoing_call_next ready _ ready eq_refl)
    as (resp' & H1 & H2 & H3 & H4 & H5 & H6).
  exists resp'. split; [exact H1|]. split; [exact H2|]. split; [exact H3|].
  split; [rewrite H4; by vm_compute|]. split; [|exact H6].
  rewrite (H5 "Set-Cookie"); [reflexivity | by vm_compute].
Defined.

(** ** Configuring the logger *)

Lemma get_logger_lookup name log_level manager :
  logger.get_logger name log_level manager !! name
  = Some {| logger.lg_level := log_level;
            logger.lg_handlers :=
              [ {| logger.stream := "sys.stdout";
                   logger.fmt := "%(message)s" |} ];
            logger.lg_propagate := false |}.
Proof.
  unfold logger.get_logger. rewrite lookup_insert_eq.
  by destruct (logger.lg_handlers (logger.getLogger name manager)).
Qed.

Lemma get_logger_lookup_other name log_level manager other :
  other <> name ->
  logger.get_logger name log_level manager !! other = manager !! other.
Proof. intros H. unfold logger.get_logger. by rewrite lookup_insert_ne. Qed.


(** A logger that had two handlers, level DEBUG and propagation on keeps
    one handler after three calls. *)
Example crowded_logger_is_reset :
  Nat.iter 3 (logger.get_logger "task-api" logger.INFO_level) crowded
  !! "task-api"
  = Some {| logger.lg_level := 20;
            logger.lg_handlers :=
              [ {| logger.stream := "sys.stdout";
                   logger.fmt := "%(message)s" |} ];
            logger.lg_propagate := false |}.
Proof.
  exact (get_logger_lookup "task-api" logger.INFO_level
           (Nat.iter 2 (logger.get_logger "task-api" logger.INFO_level)
              crowded)).
Qed.

(** ** The context of a request logger *)

Lemma get_dict_set_eq key v d : get key (logger.dict_set key v d) = Some v.
Proof.
  induction d as [|[k x] d IH]; simpl.
  - by rewrite String.eqb_refl.
  - destruct (String.eqb k key) eqn:E; simpl; by rewrite E.
Qed.

Lemma get_dict_set_ne key key' v d :
  key <> key' -> get key' (logger.dict_set key v d) = get key' d.
Proof.
  intros Hne. induction d as [|[k x] d IH]; simpl.
  - by destruct (String.eqb_spec key key').
  - destruct (String.eqb_spec k key) as [->|Hk]; simpl.
    + by destruct (String.eqb_spec key key').
    + by destruct (String.eqb k key').
Qed.

Lemma fold_keep_other context : forall extra key,
  key ∉ map fst context ->
  get key (fold_left keep_serializable context extra) = get key extra.
Proof.
  induction context as [|[k v] context IH]; intros extra key Hnot; [done|].
  simpl in *. apply not_elem_of_cons in Hnot as [Hne Hnot].
  rewrite IH by done. unfold keep_serializable. simpl.
  destruct (logger.json_serializable v); [|done].
  by apply get_dict_set_ne.
Qed.

Lemma fold_keep_item context : forall extra key v,
  NoDup (map fst context) ->
  (key, v) ∈ context ->
  get key (fold_left keep_serializable context extra)
  = if logger.json_serializable v then Some v else get key extra.
Proof.
  induction context as [|[k x] context IH]; intros extra key v Hnd Hin.
  - by apply elem_of_nil in Hin.
  - simpl in *. apply NoDup_cons in Hnd as [Hfresh Hnd].
    apply elem_of_cons in Hin as [[= <- <-]|Hin].
    + rewrite fold_keep_other by done. unfold keep_serializable. simpl.
      destruct (logger.json_serializable v); [|done].
      apply get_dict_set_eq.
    + rewrite (IH _ _ _ Hnd Hin). unfold keep_serializable. simpl.
      destruct (logger.json_serializable v); [done|].
      destruct (logger.json_serializable x); [|done].
      apply get_dict_set_ne. intros ->. apply Hfresh.
      exact (list_elem_of_fmap_2 fst _ (key, v) Hin).
Qed.

(** X16: the context of the adapter that [get_request_logger] builds holds
    the request id under request_id, every keyword of the call whose value
    is a str, int, float, bool, list, dict or None with that value, and
    nothing else: a keyword whose value is of another type is dropped.
    (The keywords of a call are distinct, and none of them is request_id,
    which is a parameter of its own.) *)
Theorem get_request_logger_filters_context request_id context :
  NoDup (map fst context) ->
  "request_id" ∉ map fst context ->
  exists extra,
    logger.get_request_logger request_id context = LoggerAdapter extra /\
    get "request_id" extra = Some (VStr request_id) /\
    (forall key v,
       (key, v) ∈ context ->
       get key extra
       = if logger.json_serializable v then Some v else None) /\
    (forall key,
       key <> "request_id" -> key ∉ map fst context ->
       get key extra = None).
Proof.
  intros Hnd Hrid. eexists. split; [reflexivity|].
  change (fold_left _ context ?e) with (fold_left keep_serializable context e).
  split; [|split].
  - by rewrite fold_keep_other.
  - intros key v Hin. rewrite (fold_keep_item _ _ _ _ Hnd Hin).
    destruct (logger.json_serializable v); [done|]. cbn [get].
    destruct (String.eqb_spec "request_id" key) as [<-|]; [|done].
    destruct Hrid. exact (list_elem_of_fmap_2 fst _ _ Hin).
  - intros key Hne Hnot. rewrite fold_keep_other by done. cbn [get].
    by destruct (String.eqb_spec "request_id" key).
Qed.

(** The theorem at work on a call with four keywords, two of listed
    types. *)
Lemma get_request_logger_filters_context_witness :
  NoDup (map fst request_context) /\
  ("request_id" ∉ map fst request_context) /\
  exists extra,
    logger.get_request_logger "r-1" request_context = LoggerAdapter extra /\
    get "request_id" extra = Some (VStr "r-1") /\
    get "attempt" extra = Some (VInt 2) /\
    get "deadline" extra = None /\
    get "tags" extra = None.
Proof.
  assert (Hnd : NoDup (map fst request_context))
    by (apply (bool_decide_unpack _); vm_compute; exact I).
  assert (Hrid : "request_id" ∉ map fst request_context)
    by (apply (bool_decide_unpack _); vm_compute; exact I).
  split; [exact Hnd|]. split; [exact Hrid|].
  destruct (get_request_logger_filters_context "r-1" request_context Hnd Hrid)
    as (extra & H1 & H2 & H3 & _).
  exists extra. split; [exact H1|]. split; [exact H2|].
  split; [|split].
  - apply (H3 "attempt" (VInt 2)). unfold request_context.
    rewrite !elem_of_cons. auto 10.
  - apply (H3 "deadline" (VObject "datetime")). unfold request_context.
    rewrite !elem_of_cons. auto 10.
  - apply (H3 "tags" (VTuple [VStr "a"])). unfold request_context.
    rewrite !elem_of_cons. auto 10.
Defined.

(** ** The formatter, for any base formatter *)

(** X17: whatever the base formatter does, an entry of the record's
    dictionary whose key is neither bound in the LogRecord class nor one
    of args, exc_info, exc_text, stack_info and message, and whose value is
    a str, int, float, bool, list, dict or None, is in the dictionary that
    [add_fields] leaves, with its value.  This holds for the fields of the
    call's extra and for the attributes of the logging library alike. *)
Theorem add_fields_keeps_listed_types
    super_add_fields class_dict now log_record record message_dict key v :
  NoDup (map fst (logger.__dict__ record)) ->
  (key, v) ∈ logger.__dict__ record ->
  key ∉ class_dict ->
  key ∉ logger.skipped ->
  logger.json_serializable v = true ->
  logger.add_fields super_add_fields class_dict now
    log_record record message_dict !! key = Some v.
Proof.
  intros Hnd Hin Hc Hs Hj. unfold logger.add_fields.
  by apply fold_add_attribute_lookup.
Qed.

Lemma sample_record_keys_distinct :
  NoDup (map fst (logger.__dict__ sample_record)).
Proof. apply (bool_decide_unpack _). vm_compute. exact I. Qed.

(** The theorem at work on the line number of the sample record, an
    attribute of the logging library. *)
Lemma add_fields_keeps_listed_types_witness :
  NoDup (map fst (logger.__dict__ sample_record)) /\
  (("lineno", VInt 275) ∈ logger.__dict__ sample_record) /\
  ("lineno" ∉ logger.CPython_LogRecord_class_dict) /\
  ("lineno" ∉ logger.skipped) /\
  emitted !! "lineno" = Some (VInt 275).
Proof.
  assert (Hin : ("lineno", VInt 275) ∈ logger.__dict__ sample_record).
  { unfold logger.__dict__, sample_record. cbn [logger.attributes].
    rewrite !elem_of_cons. auto 20. }
  assert (Hc : "lineno" ∉ logger.CPython_LogRecord_class_dict)
    by (apply (bool_decide_unpack _); vm_compute; exact I).
  assert (Hs : "lineno" ∉ logger.skipped)
    by (apply (bool_decide_unpack _); vm_compute; exact I).
  split; [exact sample_record_keys_distinct|]. split; [exact Hin|].
  split; [exact Hc|]. split; [exact Hs|].
  exact (add_fields_keeps_listed_types logger.JsonFormatter_add_fields
           logger.CPython_LogRecord_class_dict "2024-05-01T12:00:00+00:00"
           ∅ sample_record ∅ "lineno" (VInt 275)
           sample_record_keys_distinct Hin Hc Hs eq_refl).
Defined.

(** X18: the loop of [add_fields] never writes a value of another type:
    under the key of an entry whose value is none of the listed types, the
    dictionary holds after [add_fields] what it held before the loop.
    That is the value [add_fields] itself has assigned when the key is
    logger, level or timestamp, and for every other key what the base
    formatter left there. *)
Theorem add_fields_adds_no_other_type
    super_add_fields class_dict now log_record record message_dict key v :
  NoDup (map fst (logger.__dict__ record)) ->
  (key, v) ∈ logger.__dict__ record ->
  logger.json_serializable v = false ->
  logger.add_fields super_add_fields class_dict now
    log_record record message_dict !! key
  = if decide (key = "logger") then Some (VStr (logger.name record))
    else if decide (key = "level")
         then Some (VStr (logger.levelname record))
         else if decide (key = "timestamp") then Some (VStr now)
              else super_add_fields log_record record message_dict !! key.
Proof.
  intros Hnd Hin Hj. unfold logger.add_fields.
  rewrite (fold_add_attribute_unserializable _ _ _ key v Hnd Hin Hj).
  destruct (decide (key = "logger")) as [->|H1]; [apply lookup_insert_eq|].
  rewrite lookup_insert_ne by done.
  destruct (decide (key = "level")) as [->|H2]; [apply lookup_insert_eq|].
  rewrite lookup_insert_ne by done.
  destruct (decide (key = "timestamp")) as [->|H3]; [apply lookup_insert_eq|].
  by rewrite lookup_insert_ne.
Qed.

(** The theorem at work with a base formatter that adds nothing: the
    datetime is then not emitted, and under level stands the level name of
    the record, not the tuple. *)
Lemma add_fields_adds_no_other_type_witness :
  NoDup (map fst (logger.__dict__ shadowing_record)) /\
  (("deadline", VObject "datetime") ∈ logger.__dict__ shadowing_record) /\
  (("level", VTuple [VInt 3]) ∈ logger.__dict__ shadowing_record) /\
  logger.add_fields (fun log_record _ _ => log_record)
    logger.CPython_LogRecord_class_dict "2024-05-01T12:00:00+00:00"
    ∅ shadowing_record ∅ !! "deadline" = None /\
  logger.add_fields (fun log_record _ _ => log_record)
    logger.CPython_LogRecord_class_dict "2024-05-01T12:00:00+00:00"
    ∅ shadowing_record ∅ !! "level" = Some (VStr "INFO").
Proof.
  assert (Hnd : NoDup (map fst (logger.__dict__ shadowing_record)))
    by (apply (bool_decide_unpack _); vm_compute; exact I).
  assert (Hin : ("deadline", VObject "datetime")
                ∈ logger.__dict__ shadowing_record).
  { unfold logger.__dict__, shadowing_record. cbn [logger.attributes].
    rewrite !elem_of_cons. auto 20. }
  assert (Hin' : ("level", VTuple [VInt 3])
                 ∈ logger.__dict__ shadowing_record).
  { unfold logger.__dict__, shadowing_record. cbn [logger.attributes].
    rewrite !elem_of_cons. auto 20. }
  split; [exact Hnd|]. split; [exact Hin|]. split; [exact Hin'|].
  split.
  - exact (add_fields_adds_no_other_type (fun log_record _ _ => log_record)
             logger.CPython_LogRecord_class_dict "2024-05-01T12:00:00+00:00"
             ∅ shadowing_record ∅ "deadline" (VObject "datetime")
             Hnd Hin eq_refl).
  - exact (add_fields_adds_no_other_type (fun log_record _ _ => log_record)
             logger.CPython_LogRecord_class_dict "2024-05-01T12:00:00+00:00"
             ∅ shadowing_record ∅ "level" (VTuple [VInt 3])
             Hnd Hin' eq_refl).
Defined.

(** X19: unless the record has an attribute of that very name, the
    dictionary that [add_fields] leaves holds the time of formatting under
    timestamp, the level name of the record under level and the name of
    its logger under logger, whatever the base formatter put under these
    keys. *)
Theorem add_fields_sets_standard_fields
    super_add_fields class_dict now log_record record message_dict :
  "timestamp" ∉ map fst (logger.attributes record) ->
  "level" ∉ map fst (logger.attributes record) ->
  "logger" ∉ map fst (logger.attributes record) ->
  let out := logger.add_fields super_add_fields class_dict now
               log_record record message_dict in
  out !! "timestamp" = Some (VStr now) /\
  out !! "level" = Some (VStr (logger.levelname record)) /\
  out !! "logger" = Some (VStr (logger.name record)).
Proof.
  intros Ht Hl Hg. unfold logger.add_fields. cbn zeta.
  assert (Hdict : forall key,
             key <> "name" -> key <> "levelname" ->
             key ∉ map fst (logger.attributes record) ->
             key ∉ map fst (logger.__dict__ record)).
  { intros key H1 H2 H3. unfold logger.__dict__. cbn [map fst].
    rewrite !not_elem_of_cons. done. }
  rewrite !fold_add_attribute_other by (by apply Hdict).
  split; [|split].
  - do 2 rewrite lookup_insert_ne by done. apply lookup_insert_eq.
  - rewrite lookup_insert_ne by done. apply lookup_insert_eq.
  - apply lookup_insert_eq.
Qed.

(** The theorem at work on the sample record and the base formatter of a
    running service. *)
Lemma add_fields_sets_standard_fields_witness :
  ("timestamp" ∉ map fst (logger.attributes sample_record)) /\
  ("level" ∉ map fst (logger.attributes sample_record)) /\
  ("logger" ∉ map fst (logger.attributes sample_record)) /\
  emitted !! "timestamp" = Some (VStr "2024-05-01T12:00:00+00:00") /\
  emitted !! "level" = Some (VStr "INFO") /\
  emitted !! "logger" = Some (VStr "task-api").
Proof.
  assert (Ht : "timestamp" ∉ map fst (logger.attributes sample_record))
    by (apply (bool_decide_unpack _); vm_compute; exact I).
  assert (Hl : "level" ∉ map fst (logger.attributes sample_record))
    by (apply (bool_decide_unpack _); vm_compute; exact I).
  assert (Hg : "logger" ∉ map fst (logger.attributes sample_record))
    by (apply (bool_decide_unpack _); vm_compute; exact I).
  split; [exact Ht|]. split; [exact Hl|]. split; [exact Hg|].
  exact (add_fields_sets_standard_fields logger.JsonFormatter_add_fields
           logger.CPython_LogRecord_class_dict "2024-05-01T12:00:00+00:00"
           ∅ sample_record ∅ Ht Hl Hg).
Defined.

(** ** A store that was never migrated *)

Lemma unmigrated_fetchrow env title description user_id :
  maintains (fun st => tasks st = None)
    (asyncpg.fetchrow env title description user_id).
Proof.
  intros w Hw. unfold asyncpg.fetchrow, bind. simpl.
  destruct (asyncpg.fetchrow_outcome _ _ _ _ _) as [e|[rec st']] eqn:Hout;
    simpl; [done|].
  apply fetchrow_outcome_inr in Hout as (rows & _ & _ & Hrows & _).
  congruence.
Qed.

(** X20: while the tasks table is missing, as after a failed start-up, the
    service stays up and fails per request: with the store reachable,
    [create_task] and [list_tasks] both raise the 500 whose detail names
    the missing relation, and no request whatever creates the table. *)
Theorem unmigrated_store_fails_per_request env lg w :
  tasks (store w) = None ->
  connect_error env = None -> statement_error env = None ->
  (forall task,
     fst (create_task env task lg w)
     = Raise (HTTPException 500
                ("Database error: relation " +:+ quoted "tasks"
                 +:+ " does not exist")))
  /\ (forall user_id,
        fst (list_tasks env user_id lg w)
        = Raise (HTTPException 500
                   ("Database error: relation " +:+ quoted "tasks"
                 +:+ " does not exist")))
  /\ (forall env' fw req, tasks (store (snd (app env' fw req w))) = None).
Proof.
  intros Hnone Hc Hs. split; [|split].
  - intros task.
    rewrite (create_task_statement_fails env task lg w undefined_table Hc);
      [reflexivity|].
    unfold asyncpg.fetchrow_outcome, insert_returning. by rewrite Hs, Hnone.
  - intros u.
    rewrite (list_tasks_statement_fails env u lg w undefined_table Hc);
      [reflexivity|].
    unfold asyncpg.fetch_outcome, select_by_user. by rewrite Hs, Hnone.
  - intros env' fw req.
    by apply (maintains_app (fun st => tasks st = None) unmigrated_fetchrow).
Qed.

(** The theorem at work on a database whose start-up failed. *)
Lemma unmigrated_store_fails_per_request_witness :
  tasks (store (snd (lifespan_startup unreachable blank))) = None /\
  connect_error quiet = None /\ statement_error quiet = None /\
  fst (list_tasks quiet "u1" ModuleLogger
         (snd (lifespan_startup unreachable blank)))
  = Raise (HTTPException 500
             ("Database error: relation " +:+ quoted "tasks"
              +:+ " does not exist")).
Proof.
  split; [reflexivity|]. split; [reflexivity|]. split; [reflexivity|].
  exact (proj1 (proj2 (unmigrated_store_fails_per_request quiet ModuleLogger
                         (snd (lifespan_startup unreachable blank))
                         eq_refl eq_refl eq_refl)) "u1").
Defined.

(** ** The class middleware *)

(** [RequestContextMiddleware] hands the handlers a logger whose context is
    the request id alone and returns or raises what they return or raise:
    it sets no header and logs nothing. *)
Lemma RequestContextMiddleware_passes_through env req call_next w :
  RequestContextMiddleware env req call_next w
  = call_next
      (set_state_logger
         (LoggerAdapter [("request_id", VStr (request_id env))]) req) w.
Proof.
  unfold RequestContextMiddleware, bind, ret. fold (request_id env).
  by destruct (call_next _ w) as [[resp|e] w'].
Qed.
